(** * PANX1 electrophysiology ABF batch plotting: a shallow embedding

    This development embeds [src/abf_batch_plot.py] and proves the
    properties its specification states about it.

    Modelling conventions.
    - Python [int] is [Z]; Python [float] is idealised as an exact
      rational [Q] (no rounding, no NaN, no infinities).
    - Python [str] is [string].  An f-string that interpolates a float keeps
      the float field symbolic (see [piece]): the decimal rendering of a
      binary float is outside the model.
    - Code that can raise runs in a state-and-exception monad [M] over the
      [world] (file system, stdout, stderr); the state survives a raise, as
      the side effects of a Python call survive its exception.
    - [pathlib], [os], [pyabf], [matplotlib] and [scipy.signal] are external
      libraries.  Their control flow that the program depends on (argument
      validation, path parsing, padding, file creation) is modelled from
      their documented behaviour; the numerical filter design of scipy is a
      parameter ([filter_kernel]). *)

From Stdlib Require Import ZArith QArith String Ascii List DecimalString.
From Stdlib Require Import DecimalN DecimalPos DecimalFacts.
From stdpp Require Import gmap strings list fin_maps.

Open Scope Z_scope.

(** ** Python integer formatting and [build_filename] *)

(** [str(n)] of a non-negative integer. *)
Definition decimal (n : N) : string := NilZero.string_of_uint (N.to_uint n).

Fixpoint zeros (k : nat) : string :=
  match k with
  | O => EmptyString
  | S k' => String "0" (zeros k')
  end.

(** [format(number, "0{width}d")]: the sign, then zeros, then the digits; the
    sign counts toward the width and nothing is ever cut off. *)
Definition format_0d (width : nat) (number : Z) : string :=
  let sign := if number <? 0 then "-"%string else EmptyString in
  let digits := decimal (Z.abs_N number) in
  sign +:+ zeros (width - (String.length sign + String.length digits)) +:+ digits.

(** [build_filename], line 37: [f"{prefix_date}_{number:04d}.abf"]. *)
Definition build_filename (prefix_date : string) (number : Z) : string :=
  prefix_date +:+ "_" +:+ format_0d 4 number +:+ ".abf".

(** The character of one decimal digit. *)
Definition digit_char (d : Z) : ascii := ascii_of_nat (48 + Z.to_nat d).

(** Exactly four decimal digits of [index], most significant first. *)
Definition four_digits (index : Z) : string :=
  String (digit_char (index / 1000 mod 10))
    (String (digit_char (index / 100 mod 10))
       (String (digit_char (index / 10 mod 10))
          (String (digit_char (index mod 10)) EmptyString))).

(** The field of width four is the four digits. *)
Definition padded_ok (index : Z) : bool :=
  String.eqb (format_0d 4 index) (four_digits index).

(** Python's [str(n)] for an integer. *)
Definition int_str (n : Z) : string :=
  (if n <? 0 then "-"%string else EmptyString) +:+ decimal (Z.abs_N n).

(** ** Python values, exceptions and effects *)

(** One field of a rendered f-string: literal text, [{x}] of a float, or
    [{x:.Nf}] of a float. *)
Inductive piece :=
| Str (s : string)
| FloatRepr (x : Q)
| FloatFixed (digits : nat) (x : Q).

Definition text := list piece.

(** The classes of the exceptions that occur; all derive from [Exception]
    (the four file-system classes also from [OSError]). *)
Inductive pyclass :=
| ValueError
| AttributeError
| ZeroDivisionError
| FileNotFoundError
| FileExistsError
| NotADirectoryError
| IsADirectoryError
| OtherException (name : string).

(** An exception instance: its class and [str(e)]. *)
Record exn := Raise { exn_class : pyclass; exn_msg : text }.

Inductive result (A : Type) :=
| Ok (a : A)
| Err (e : exn).
Arguments Ok {A} a.
Arguments Err {A} e.

#[global] Instance result_ret : MRet result := @Ok.
#[global] Instance result_bind : MBind result := fun A B f r =>
  match r with
  | Ok a => f a
  | Err e => Err e
  end.

(** ** The recording library (pyabf) and the figure (matplotlib) *)

(** What the program reads of a [pyabf.ABF]: the two alternative sample-rate
    attributes (absent when [hasattr] is false) and, for each sweep, the
    arrays [sweepX] and [sweepY]. *)
Record ABF := {
  sampleRateHz : option Q;
  dataRate : option Q;
  sweeps : list (list Q * list Q) }.

Definition sweepCount (abf : ABF) : nat := length (sweeps abf).

Record vline := {
  vl_x : Q;
  vl_linestyle : string;
  vl_color : string;
  vl_label : text }.

Record Figure := {
  fig_lines : list (list Q * list Q * Q);
  fig_vlines : list vline;
  fig_xlabel : string;
  fig_ylabel : string;
  fig_title : string;
  fig_legend : bool }.

(** ** The world: file system and the two output streams *)

Inductive content :=
| Recording (abf : ABF)
| Unreadable (e : exn)
| Rendering (fig : Figure) (dpi : Z).

Inductive node :=
| Dir
| File (c : content).

(** The file system is keyed by the path string handed to the operating
    system (lexical identity: no symbolic links, no [..] resolution). *)
Record world := {
  fs : gmap string node;
  stdout : list text;
  stderr : list text }.

(** State and exceptions; the state survives a raise. *)
Definition M (A : Type) : Type := world -> world * result A.

#[global] Instance M_ret : MRet M := fun A a w => (w, Ok a).
#[global] Instance M_bind : MBind M := fun A B f m w =>
  match m w with
  | (w', Ok a) => f a w'
  | (w', Err e) => (w', Err e)
  end.

Definition raise {A : Type} (e : exn) : M A := fun w => (w, Err e).

Definition lift {A : Type} (r : result A) : M A := fun w => (w, r).

(** [try: m  except Exception as e: h e]. *)
Definition try_except {A : Type} (m : M A) (h : exn -> M A) : M A := fun w =>
  match m w with
  | (w', Ok a) => (w', Ok a)
  | (w', Err e) => h e w'
  end.

(** A [for] loop that carries the loop's local variable as an accumulator. *)
Fixpoint foldM {A B : Type} (f : A -> B -> M B) (l : list A) (acc : B) : M B :=
  match l with
  | [] => mret acc
  | x :: l' => acc' ← f x acc; foldM f l' acc'
  end.

Definition print_out (line : text) : M unit := fun w =>
  ({| fs := fs w; stdout := stdout w ++ [line]; stderr := stderr w |}, Ok tt).

Definition print_err (line : text) : M unit := fun w =>
  ({| fs := fs w; stdout := stdout w; stderr := stderr w ++ [line] |}, Ok tt).

(** [range(lo, hi)] over integers. *)
Definition py_range (lo hi : Z) : list Z := seqZ lo (hi - lo).

(** Python float division. *)
Definition py_div (x y : Q) : result Q :=
  if Qeq_bool y 0 then Err (Raise ZeroDivisionError [Str "float division by zero"])
  else Ok (x / y)%Q.

(** ** pathlib (POSIX flavour) *)

(** A parsed pure path: the root ([""], ["/"] or ["//"]) and the parts. *)
Record Path := { path_root : string; path_parts : list string }.

(** [s.split("/")]. *)
Fixpoint split_slash (s : string) : list string :=
  match s with
  | EmptyString => [EmptyString]
  | String c r =>
      if Ascii.eqb c "/" then EmptyString :: split_slash r
      else match split_slash r with
           | h :: t => String c h :: t
           | [] => [String c EmptyString]
           end
  end.

(** [posixpath.splitroot]: exactly two leading slashes are a root of their
    own, any other number of them is the root ["/"]. *)
Definition split_root (s : string) : string :=
  match s with
  | String "/" (String "/" (String "/" _)) => "/"
  | String "/" (String "/" _) => "//"
  | String "/" _ => "/"
  | _ => EmptyString
  end.

Definition kept_part (x : string) : bool :=
  negb (String.eqb x EmptyString) && negb (String.eqb x ".").

(** [PurePosixPath(s)]: empty and ["."] components are dropped. *)
Definition parse_path (s : string) : Path :=
  {| path_root := split_root s; path_parts := List.filter kept_part (split_slash s) |}.

(** [p / s]: an absolute [s] replaces [p]. *)
Definition joinpath (p : Path) (s : string) : Path :=
  let q := parse_path s in
  if String.eqb (path_root q) EmptyString
  then {| path_root := path_root p; path_parts := path_parts p ++ path_parts q |}
  else q.

(** [str(p)]. *)
Definition path_str (p : Path) : string :=
  match path_root p, path_parts p with
  | EmptyString, [] => "."
  | root, parts => root +:+ String.concat "/" parts
  end.

(** [p.name]. *)
Definition path_name (p : Path) : string := List.last (path_parts p) EmptyString.

(** [name.rfind(".")]. *)
Fixpoint rfind_dot (s : string) : option nat :=
  match s with
  | EmptyString => None
  | String c r =>
      match rfind_dot r with
      | Some i => Some (S i)
      | None => if Ascii.eqb c "." then Some O else None
      end
  end.

(** [p.stem]: the name without its last suffix. *)
Definition path_stem (p : Path) : string :=
  let name := path_name p in
  match rfind_dot name with
  | Some i =>
      if (0 <? i)%nat && (i <? String.length name - 1)%nat
      then String.substring 0 i name else name
  | None => name
  end.

(** [p.parent]; the parent of a path without parts is the path itself. *)
Definition path_parent (p : Path) : Path :=
  {| path_root := path_root p; path_parts := removelast (path_parts p) |}.

(** ** The operating system's view of the file system *)

(** [os.stat]: the root and the working directory always exist. *)
Definition os_stat (files : gmap string node) (s : string) : option node :=
  if String.eqb s "." || String.eqb s "/" || String.eqb s "//" then Some Dir
  else files !! s.

Definition quoted (s : string) : string := "'" +:+ s +:+ "'".

Definition os_error (cls : pyclass) (what : string) (s : string) : exn :=
  Raise cls [Str (what +:+ ": " +:+ quoted s)].

Definition with_fs (w : world) (files : gmap string node) : world :=
  {| fs := files; stdout := stdout w; stderr := stderr w |}.

(** [os.mkdir(p)]. *)
Definition os_mkdir (p : Path) : M unit := fun w =>
  let s := path_str p in
  match os_stat (fs w) (path_str (path_parent p)) with
  | None => (w, Err (os_error FileNotFoundError "[Errno 2] No such file or directory" s))
  | Some (File _) => (w, Err (os_error NotADirectoryError "[Errno 20] Not a directory" s))
  | Some Dir =>
      match os_stat (fs w) s with
      | Some _ => (w, Err (os_error FileExistsError "[Errno 17] File exists" s))
      | None => (with_fs w (<[s := Dir]> (fs w)), Ok tt)
      end
  end.

(** [open(p, "wb")] followed by writing [c] and closing. *)
Definition os_write (p : Path) (c : content) : M unit := fun w =>
  let s := path_str p in
  match os_stat (fs w) (path_str (path_parent p)) with
  | None => (w, Err (os_error FileNotFoundError "[Errno 2] No such file or directory" s))
  | Some (File _) => (w, Err (os_error NotADirectoryError "[Errno 20] Not a directory" s))
  | Some Dir =>
      match os_stat (fs w) s with
      | Some Dir => (w, Err (os_error IsADirectoryError "[Errno 21] Is a directory" s))
      | _ => (with_fs w (<[s := File c]> (fs w)), Ok tt)
      end
  end.

(** [p.exists()]. *)
Definition Path_exists (p : Path) : M bool := fun w =>
  (w, Ok (bool_decide (is_Some (os_stat (fs w) (path_str p))))).

(** [p.is_dir()]. *)
Definition Path_is_dir (p : Path) : M bool := fun w =>
  (w, Ok (match os_stat (fs w) (path_str p) with Some Dir => true | _ => false end)).

Definition is_FileNotFoundError (e : exn) : bool :=
  match exn_class e with
  | FileNotFoundError => true
  | _ => false
  end.

(** [Path.mkdir(parents=True, exist_ok=True)] as pathlib writes it: try
    [os.mkdir]; on [FileNotFoundError] create the parent first and try again;
    on any other [OSError] succeed only if the path is already a directory.
    The recursion is on the parts, last part first. *)
Fixpoint mkdir_parents (root : string) (rparts : list string) : M unit :=
  let self := {| path_root := root; path_parts := rev rparts |} in
  let exist_ok (e : exn) : M unit :=
    d ← Path_is_dir self; if d : bool then mret tt else raise e in
  try_except (os_mkdir self) (fun e =>
    if is_FileNotFoundError e then
      match rparts with
      | [] => raise e
      | _ :: rparent =>
          _ ← mkdir_parents root rparent;
          try_except (os_mkdir self) (fun e' =>
            if is_FileNotFoundError e' then raise e' else exist_ok e')
      end
    else exist_ok e).

Definition Path_mkdir (p : Path) : M unit :=
  mkdir_parents (path_root p) (rev (path_parts p)).

(** [pyabf.ABF(s)]: the recording stored under [s], or the library's error. *)
Definition pyabf_ABF (s : string) : M ABF := fun w =>
  match os_stat (fs w) s with
  | None => (w, Err (Raise ValueError [Str ("ABF file does not exist: " +:+ s)]))
  | Some Dir => (w, Err (os_error IsADirectoryError "[Errno 21] Is a directory" s))
  | Some (File (Recording abf)) => (w, Ok abf)
  | Some (File (Unreadable e)) => (w, Err e)
  | Some (File (Rendering _ _)) =>
      (w, Err (Raise (OtherException "Exception") [Str "unsupported ABF format"]))
  end.

(** [fig.savefig(out_file, dpi=...)]. *)
Definition savefig (fig : Figure) (out_file : Path) (dpi : Z) : M unit :=
  os_write out_file (Rendering fig dpi).

(** ** scipy.signal *)

(** The numerical design that the model leaves open: the [i]-th numerator
    and denominator coefficient of the order-[N] Butterworth low-pass at the
    normalised cutoff [Wn], and the [i]-th entry of [lfilter_zi(b, a)]. *)
Class filter_kernel := {
  butter_num : nat -> Q -> nat -> Q;
  butter_den : nat -> Q -> nat -> Q;
  zi_coeff : list Q -> list Q -> nat -> Q }.

Section Program.
Context {K : filter_kernel}.

Definition butter_error : exn :=
  Raise ValueError [Str "Digital filter critical frequencies must be 0 < Wn < 1"].

(** [butter(N, Wn, btype="low", analog=False)]: the critical frequency must
    lie strictly between 0 and 1; the result is two polynomials of degree
    [N], the denominator monic. *)
Definition butter (N : nat) (Wn : Q) : result (list Q * list Q) :=
  if Qle_bool Wn 0 || Qle_bool 1 Wn then Err butter_error
  else Ok (map (butter_num N Wn) (seq 0 (S N)),
           1%Q :: map (butter_den N Wn) (seq 1 N)).

(** [lfilter_zi(b, a)]: one state per delay. *)
Definition lfilter_zi (b a : list Q) : list Q :=
  map (zi_coeff b a) (seq 0 (Nat.max (length a) (length b) - 1)).

(** [odd_ext(x, n)]: [n] samples mirrored through each end point. *)
Definition odd_ext (x : list Q) (n : nat) : list Q :=
  if (n <? 1)%nat then x
  else
    let left_end := hd 0%Q x in
    let left_ext := rev (firstn n (tl x)) in
    let right_end := List.last x 0%Q in
    let right_ext := firstn n (tl (rev x)) in
    map (fun v => 2 * left_end - v)%Q left_ext ++ x
      ++ map (fun v => 2 * right_end - v)%Q right_ext.

(** One sample of the transposed direct form II. *)
Definition lfilter_step (b a z : list Q) (xm : Q) : Q * list Q :=
  let y := (nth 0 b 0 * xm + nth 0 z 0)%Q in
  (y, map (fun i => nth (S i) b 0 * xm + nth (S i) z 0 - nth (S i) a 0 * y)%Q
        (seq 0 (length z))).

Fixpoint lfilter_run (b a z x : list Q) : list Q * list Q :=
  match x with
  | [] => ([], z)
  | xm :: x' =>
      let '(y, z') := lfilter_step b a z xm in
      let '(ys, zf) := lfilter_run b a z' x' in
      (y :: ys, zf)
  end.

(** [lfilter(b, a, x, zi=zi)]: the coefficients are normalised by [a[0]]. *)
Definition lfilter (b a x zi : list Q) : result (list Q * list Q) :=
  match a with
  | [] => Err (Raise ValueError [Str "Denominator a must have at least one element."])
  | a0 :: _ =>
      if Qeq_bool a0 0
      then Err (Raise ValueError [Str "First element of a must be nonzero."])
      else Ok (lfilter_run (map (fun c => c / a0)%Q b) (map (fun c => c / a0)%Q a) zi x)
  end.

(** The [ValueError] of [filtfilt] for an input that the padding does not fit. *)
Definition padlen_error (edge : nat) : exn :=
  Raise ValueError
    [Str ("The length of the input vector x must be greater than padlen, which is "
          +:+ decimal (N.of_nat edge) +:+ ".")].

(** [filtfilt(b, a, x)] with its defaults ([padtype="odd"],
    [padlen = 3 * max(len(a), len(b))], [method="pad"]): the input must be
    longer than the padding; it is extended, filtered forward, filtered
    backward and cut back to the input's extent. *)
Definition filtfilt (b a x : list Q) : result (list Q) :=
  let ntaps := Nat.max (length a) (length b) in
  let edge := (3 * ntaps)%nat in
  if (length x <=? edge)%nat then Err (padlen_error edge)
  else
    let ext := odd_ext x edge in
    let zi := lfilter_zi b a in
    let x0 := hd 0%Q ext in
    '(y, _) ← lfilter b a ext (map (Qmult x0) zi);
    let y0 := List.last y 0%Q in
    '(y, _) ← lfilter b a (rev y) (map (Qmult y0) zi);
    let y := rev y in
    Ok (if (0 <? edge)%nat then firstn (length y - 2 * edge) (skipn edge y) else y).

(** ** The program *)

(** [get_sample_rate], line 19. *)
Definition get_sample_rate (abf : ABF) : result Q :=
  match sampleRateHz abf with
  | Some rate => Ok rate
  | None =>
      match dataRate abf with
      | Some rate => Ok rate
      | None =>
          Err (Raise AttributeError
                 [Str "ABF sample rate not found (sampleRateHz or dataRate missing)."])
      end
  end.

(** The [ValueError] of line 32. *)
Definition nyquist_error (cutoff_hz nyquist : Q) : exn :=
  Raise ValueError
    [Str "Cutoff ("; FloatRepr cutoff_hz; Str " Hz) must be less than Nyquist (";
     FloatFixed 1 nyquist; Str " Hz)."].

(** Lines 33 and 34: design the filter at the normalised cutoff, apply it. *)
Definition design_and_apply (data : list Q) (cutoff_hz nyquist : Q) (order : nat)
  : result (list Q) :=
  Wn ← py_div cutoff_hz nyquist;
  '(b, a) ← butter order Wn;
  filtfilt b a data.

(** [low_pass_filter], line 28. *)
Definition low_pass_filter (data : list Q) (cutoff_hz fs_hz : Q) (order : nat)
  : result (list Q) :=
  let nyquist := ((1 # 2) * fs_hz)%Q in
  if Qle_bool nyquist cutoff_hz then Err (nyquist_error cutoff_hz nyquist)
  else design_and_apply data cutoff_hz nyquist order.

(** [plt.subplots(figsize=(12, 6))]: an empty figure. *)
Definition subplots : Figure :=
  {| fig_lines := []; fig_vlines := []; fig_xlabel := EmptyString;
     fig_ylabel := EmptyString; fig_title := EmptyString; fig_legend := false |}.

Definition ax_plot (fig : Figure) (x y : list Q) (linewidth : Q) : Figure :=
  {| fig_lines := fig_lines fig ++ [(x, y, linewidth)]; fig_vlines := fig_vlines fig;
     fig_xlabel := fig_xlabel fig; fig_ylabel := fig_ylabel fig;
     fig_title := fig_title fig; fig_legend := fig_legend fig |}.

Definition ax_axvline (fig : Figure) (x : Q) (linestyle color : string) (label : text)
  : Figure :=
  {| fig_lines := fig_lines fig;
     fig_vlines := fig_vlines fig
       ++ [{| vl_x := x; vl_linestyle := linestyle; vl_color := color; vl_label := label |}];
     fig_xlabel := fig_xlabel fig; fig_ylabel := fig_ylabel fig;
     fig_title := fig_title fig; fig_legend := fig_legend fig |}.

(** [set_xlabel], [set_ylabel], [set_title] and [legend] of lines 58 to 61. *)
Definition ax_decorate (fig : Figure) (xlabel ylabel title : string) : Figure :=
  {| fig_lines := fig_lines fig; fig_vlines := fig_vlines fig;
     fig_xlabel := xlabel; fig_ylabel := ylabel; fig_title := title;
     fig_legend := true |}.

(** [abf.setSweep(sweep)] makes [sweepX] and [sweepY] those of that sweep. *)
Definition setSweep (abf : ABF) (sweep : nat) : result (list Q * list Q) :=
  match sweeps abf !! sweep with
  | Some xy => Ok xy
  | None => Err (Raise ValueError [Str "invalid sweep number"])
  end.

(** The body of the loop of line 48. *)
Definition plot_sweep (abf : ABF) (cutoff_hz fs_hz : Q) (sweep : nat) (fig : Figure)
  : M Figure :=
  '(sweepX, sweepY) ← lift (setSweep abf sweep);
  y ← lift (low_pass_filter sweepY cutoff_hz fs_hz 4);
  mret (ax_plot fig sweepX y (4 # 5)).

(** The two output files of one input, in the order they are written. *)
Definition out_files (abf_path outdir : Path) : list Path :=
  map (fun ext => joinpath outdir (path_stem abf_path +:+ ".filtered." +:+ ext))
    ["png"; "pdf"]%string.

(** [plot_one_abf], line 42.  The figure is a value here, so that
    [plt.close(fig)] of line 68 has nothing to do. *)
Definition plot_one_abf (abf_path : Path) (cutoff_hz : Q) (baseline : Q * Q)
    (measure_t : Q) (outdir : Path) : M unit :=
  abf ← pyabf_ABF (path_str abf_path);
  fs_hz ← lift (get_sample_rate abf);
  fig ← foldM (plot_sweep abf cutoff_hz fs_hz) (seq 0 (sweepCount abf)) subplots;
  let '(base1, base2) := baseline in
  let fig := ax_axvline fig base1 "--" "r"
               [Str "baseline start ("; FloatFixed 4 base1; Str "s)"] in
  let fig := ax_axvline fig base2 "--" "g"
               [Str "baseline end ("; FloatFixed 4 base2; Str "s)"] in
  let fig := ax_axvline fig measure_t "--" "b"
               [Str "measure ("; FloatFixed 4 measure_t; Str "s)"] in
  let fig := ax_decorate fig "Time (s)" "Current (A.U.)"
               ("ABF sweeps: " +:+ path_name abf_path) in
  _ ← Path_mkdir outdir;
  foldM (fun out_file _ => savefig fig out_file 300) (out_files abf_path outdir) tt.

(** The parsed command line. *)
Record Args := {
  base_dir : Path;
  date_prefix : string;
  start : Z;
  end_ : Z;
  cutoff : Q;
  baseline : Q * Q;
  measure : Q;
  outdir : Path }.

Definition fpath_of (args : Args) (n : Z) : Path :=
  joinpath (base_dir args) (build_filename (date_prefix args) n).

Definition ok_line (fpath : Path) : text := [Str ("[OK] Processed " +:+ path_str fpath)].

Definition error_line (fpath : Path) (e : exn) : text :=
  Str ("[ERROR] " +:+ path_str fpath +:+ ": ") :: exn_msg e.

(** The body of the loop of line 85; [missing_files] is the loop's list. *)
Definition main_body (args : Args) (n : Z) (missing_files : list string)
  : M (list string) :=
  let fpath := fpath_of args n in
  found ← Path_exists fpath;
  if negb found then mret (missing_files ++ [path_str fpath])
  else
    _ ← try_except
          (_ ← plot_one_abf fpath (cutoff args) (baseline args) (measure args) (outdir args);
           print_out (ok_line fpath))
          (fun e => print_err (error_line fpath e));
    mret missing_files.

Definition main_loop (args : Args) (ns : list Z) (missing_files : list string)
  : M (list string) :=
  foldM (main_body args) ns missing_files.

Definition newline : string := String (ascii_of_nat 10) EmptyString.

(** Lines 97 to 100. *)
Definition report_missing (missing_files : list string) : M unit :=
  match missing_files with
  | [] => mret tt
  | _ =>
      _ ← print_out [Str (newline +:+ "[WARNING] Missing files:")];
      foldM (fun m _ => print_out [Str (" - " +:+ m)]) missing_files tt
  end.

(** [main], line 71, from the parsed arguments on. *)
Definition main (args : Args) : M unit :=
  missing_files ← main_loop args (py_range (start args) (end_ args + 1)) [];
  report_missing missing_files.


End Program.

(** A kernel with integer taps, for evaluating the model on examples: the
    numerator sums the last [N + 1] samples, the denominator is 1 and the
    initial state is zero. *)
Definition example_kernel : filter_kernel :=
  {| butter_num := fun _ _ _ => 1%Q;
     butter_den := fun _ _ _ => 0%Q;
     zi_coeff := fun _ _ _ => 0%Q |}.

(** [n] samples 0, 1, 2, ... *)
Definition ramp (n : nat) : list Q := map (fun i => inject_Z (Z.of_nat i)) (seq 0 n).

(** ** Vocabulary of the statements *)

Definition add_stdout (w : world) (lines : list text) : world :=
  {| fs := fs w; stdout := stdout w ++ lines; stderr := stderr w |}.

Definition add_stderr (w : world) (lines : list text) : world :=
  {| fs := fs w; stdout := stdout w; stderr := stderr w ++ lines |}.

(** What the end of the batch prints for the collected missing paths. *)
Definition warning_block (missing_files : list string) : list text :=
  match missing_files with
  | [] => []
  | _ => [Str (newline +:+ "[WARNING] Missing files:")]
           :: map (fun m => [Str (" - " +:+ m)]) missing_files
  end.

(** The world after the per-file [try] of line 91, given how
    [plot_one_abf] ended. *)
Definition after_plot (fpath : Path) (r : world * result unit) : world :=
  match r with
  | (w, Ok _) => add_stdout w [ok_line fpath]
  | (w, Err e) => add_stderr w [error_line fpath e]
  end.

(** A slash occurs in the string. *)
Fixpoint has_slash (s : string) : bool :=
  match s with
  | EmptyString => false
  | String c r => Ascii.eqb c "/" || has_slash r
  end.

Definition mk_path (root : string) (rparts : list string) : Path :=
  {| path_root := root; path_parts := rev rparts |}.

(** The path with the reversed parts [rparts] and its ancestors that have a
    part, nearest first. *)
Fixpoint lineage (root : string) (rparts : list string) : list Path :=
  match rparts with
  | [] => []
  | _ :: rparent => mk_path root rparts :: lineage root rparent
  end.

Definition path_lineage (p : Path) : list Path :=
  lineage (path_root p) (rev (path_parts p)).

Definition is_dir_in (files : gmap string node) (p : Path) : Prop :=
  os_stat files (path_str p) = Some Dir.

(** The file system is a tree along the lineage: a directory on it lies in
    a directory. *)
Fixpoint tree_along (files : gmap string node) (root : string) (rparts : list string)
  : Prop :=
  match rparts with
  | [] => True
  | _ :: rparent =>
      (is_dir_in files (mk_path root rparts) -> is_dir_in files (mk_path root rparent))
      /\ tree_along files root rparent
  end.

(** [files'] is [files] with directories added, all of them among [created]. *)
Definition dirs_added (created : list string) (files files' : gmap string node) : Prop :=
  forall s, files' !! s = files !! s
            \/ (files !! s = None /\ files' !! s = Some Dir /\ s ∈ created).

(** The path strings that [plot_one_abf] may create or write. *)
Definition touched (abf_path outdir : Path) : list string :=
  map path_str (path_lineage outdir) ++ map path_str (out_files abf_path outdir).



(** A recording with two sweeps of twenty samples at 20 kHz. *)
Definition example_recording : ABF :=
  {| sampleRateHz := Some (20000 # 1)%Q; dataRate := None;
     sweeps := [(ramp 20, ramp 20); (ramp 20, ramp 20)] |}.

(** [--base-dir data --start 77 --end 84 --outdir outputs/figs], the other
    options at their defaults. *)
Definition example_args : Args :=
  {| base_dir := parse_path "data"; date_prefix := "2024_02_21";
     start := 77; end_ := 84; cutoff := 1000%Q;
     baseline := ((5 # 1000)%Q, (11 # 1000)%Q); measure := (159 # 10000)%Q;
     outdir := parse_path "outputs/figs" |}.

(** A directory [data] that holds the recordings 77, 80 and 82. *)
Definition example_world : world :=
  {| fs := <["data/2024_02_21_0077.abf"%string := File (Recording example_recording)]>
             (<["data/2024_02_21_0080.abf"%string := File (Recording example_recording)]>
                (<["data/2024_02_21_0082.abf"%string := File (Recording example_recording)]>
                   (<["data"%string := Dir]> ∅)));
     stdout := []; stderr := [] |}.

(** The recording 77 of the example and the plot of it in a given world. *)
Definition example_fpath : Path := fpath_of example_args 77.

Definition plot_example (w : world) : world * result unit :=
  @plot_one_abf example_kernel example_fpath (cutoff example_args)
    (baseline example_args) (measure example_args) (outdir example_args) w.

(** The world after one run over recording 77, and after a second run. *)
Definition first_run : world := (plot_example example_world).1.




(** Recording 77 is sampled at 1 kHz, so that the default cutoff of 1 kHz
    lies above its Nyquist frequency of 500 Hz. *)
Definition slow_recording : ABF :=
  {| sampleRateHz := None; dataRate := Some (1000 # 1)%Q;
     sweeps := [(ramp 20, ramp 20)] |}.

Definition slow_world : world :=
  with_fs example_world
    (<["data/2024_02_21_0077.abf"%string := File (Recording slow_recording)]>
       (fs example_world)).

(** ** Further vocabulary *)

(** [int(s)] on a decimal string with an optional minus sign. *)
Definition parse_int (s : string) : option Z :=
  match s with
  | EmptyString => None
  | String c r =>
      if Ascii.eqb c "-"
      then option_map (fun d => - Z.of_N (N.of_uint d)) (NilEmpty.uint_of_string r)
      else option_map (fun d => Z.of_N (N.of_uint d)) (NilEmpty.uint_of_string s)
  end.

Section FigureVocabulary.
Context {K : filter_kernel}.

(** The traces of the sweeps: each time axis with its filtered amplitudes
    and the line width 0.8; the first sweep that the filter refuses decides
    the error. *)
Fixpoint filter_sweeps (l : list (list Q * list Q)) (cutoff_hz fs_hz : Q)
  : result (list (list Q * list Q * Q)) :=
  match l with
  | [] => Ok []
  | (sweepX, sweepY) :: l' =>
      y ← low_pass_filter sweepY cutoff_hz fs_hz 4;
      rest ← filter_sweeps l' cutoff_hz fs_hz;
      Ok ((sweepX, y, (4 # 5)%Q) :: rest)
  end.

(** The figure as it is saved: the traces, the three markers, the labels. *)
Definition finished_figure (abf_path : Path) (lines : list (list Q * list Q * Q))
    (baseline : Q * Q) (measure_t : Q) : Figure :=
  {| fig_lines := lines;
     fig_vlines :=
       [ {| vl_x := baseline.1; vl_linestyle := "--"; vl_color := "r";
            vl_label := [Str "baseline start ("; FloatFixed 4 baseline.1; Str "s)"] |};
         {| vl_x := baseline.2; vl_linestyle := "--"; vl_color := "g";
            vl_label := [Str "baseline end ("; FloatFixed 4 baseline.2; Str "s)"] |};
         {| vl_x := measure_t; vl_linestyle := "--"; vl_color := "b";
            vl_label := [Str "measure ("; FloatFixed 4 measure_t; Str "s)"] |} ];
     fig_xlabel := "Time (s)";
     fig_ylabel := "Current (A.U.)";
     fig_title := "ABF sweeps: " +:+ path_name abf_path;
     fig_legend := true |}.

(** The figure with further traces. *)
Definition add_lines (fig : Figure) (lines : list (list Q * list Q * Q)) : Figure :=
  {| fig_lines := fig_lines fig ++ lines; fig_vlines := fig_vlines fig;
     fig_xlabel := fig_xlabel fig; fig_ylabel := fig_ylabel fig;
     fig_title := fig_title fig; fig_legend := fig_legend fig |}.

(** What a trace is to its sweep. *)
Definition trace_of (cutoff_hz fs_hz : Q) (line : list Q * list Q * Q)
    (sweep : list Q * list Q) : Prop :=
  exists y, line = (sweep.1, y, (4 # 5)%Q)
            /\ low_pass_filter sweep.2 cutoff_hz fs_hz 4 = Ok y
            /\ length y = length sweep.2.

(** Creating the output directory and saving the figure twice. *)
Definition save_outputs (fig : Figure) (abf_path outdir : Path) : M unit :=
  _ ← Path_mkdir outdir;
  foldM (fun out_file _ => savefig fig out_file 300) (out_files abf_path outdir) tt.

End FigureVocabulary.

(** Both are directories or both are files. *)
Definition same_kind (nd nd' : node) : Prop :=
  match nd, nd' with
  | Dir, Dir => True
  | File _, File _ => True
  | _, _ => False
  end.

(** Every entry of [files] is an entry of the same kind of [files']. *)
Definition kept (files files' : gmap string node) : Prop :=
  forall s nd, files !! s = Some nd ->
               exists nd', files' !! s = Some nd' /\ same_kind nd nd'.

(** The example with its range turned round. *)
Definition reversed_args : Args :=
  {| base_dir := base_dir example_args; date_prefix := date_prefix example_args;
     start := 84; end_ := 77; cutoff := cutoff example_args;
     baseline := baseline example_args; measure := measure example_args;
     outdir := outdir example_args |}.

(** A prefix that starts at the root. *)
Definition absolute_args : Args :=
  {| base_dir := base_dir example_args; date_prefix := "/mnt/rec/2024_02_21";
     start := start example_args; end_ := end_ example_args;
     cutoff := cutoff example_args; baseline := baseline example_args;
     measure := measure example_args; outdir := outdir example_args |}.

(** Recording 77 has a second sweep of ten samples only. *)
Definition short_sweep_recording : ABF :=
  {| sampleRateHz := Some (20000 # 1)%Q; dataRate := None;
     sweeps := [(ramp 20, ramp 20); (ramp 10, ramp 10)] |}.

Definition short_sweep_world : world :=
  with_fs example_world
    (<["data/2024_02_21_0077.abf"%string := File (Recording short_sweep_recording)]>
       (fs example_world)).

(** * Properties *)

(** ** Integer formatting *)

Lemma padded_ok_all : forallb padded_ok (seqZ 0 10000) = true.
Proof. vm_compute. reflexivity. Qed.

Lemma format_04d_four_digits (index : Z) :
  0 <= index <= 9999 -> format_0d 4 index = four_digits index.
Proof.
  intros Hr.
  pose proof padded_ok_all as Hall.
  rewrite forallb_forall in Hall.
  apply String.eqb_eq, Hall, list_elem_of_In, elem_of_seqZ. lia.
Qed.

(** C3: for every prefix and every index in 0..9999 the file name is the
    prefix, an underscore, the index zero-padded to exactly four digits and
    the extension [.abf]; the two names the specification quotes come out. *)
Theorem build_filename_zero_padded (prefix_date : string) (index : Z) :
  0 <= index <= 9999 ->
  build_filename prefix_date index
    = prefix_date +:+ "_" +:+ four_digits index +:+ ".abf"
  /\ String.length (four_digits index) = 4%nat
  /\ build_filename "2024_02_21" 77 = "2024_02_21_0077.abf"%string
  /\ build_filename "2024_02_21" 7 = "2024_02_21_0007.abf"%string.
Proof.
  intros Hr. unfold build_filename.
  rewrite (format_04d_four_digits index Hr).
  repeat split; reflexivity.
Qed.

(** The largest index of the range, 9999. *)
Lemma build_filename_zero_padded_witness :
  build_filename "2024_02_21" 9999
    = ("2024_02_21" +:+ "_" +:+ four_digits 9999 +:+ ".abf")%string
  /\ String.length (four_digits 9999) = 4%nat
  /\ build_filename "2024_02_21" 77 = "2024_02_21_0077.abf"%string
  /\ build_filename "2024_02_21" 7 = "2024_02_21_0007.abf"%string.
Proof. apply (build_filename_zero_padded "2024_02_21" 9999). lia. Defined.

Lemma of_lu_bound d :
  (DecimalPos.Unsigned.of_lu d < 10 ^ N.of_nat (Decimal.nb_digits d))%N.
Proof.
  induction d; cbn [DecimalPos.Unsigned.of_lu Decimal.nb_digits];
    rewrite ?Nat2N.inj_succ, ?N.pow_succ_r'; simpl N.of_nat; try lia.
Qed.

Lemma length_string_of_uint d :
  String.length (NilEmpty.string_of_uint d) = Decimal.nb_digits d.
Proof. induction d; simpl; congruence. Qed.

Lemma length_nilzero d :
  (Decimal.nb_digits d <= String.length (NilZero.string_of_uint d))%nat.
Proof.
  destruct d; unfold NilZero.string_of_uint;
    rewrite ?length_string_of_uint; simpl; lia.
Qed.

(** A number is below ten to the number of its digits. *)
Lemma length_decimal (n : N) : (n < 10 ^ N.of_nat (String.length (decimal n)))%N.
Proof.
  unfold decimal.
  rewrite <- (DecimalN.Unsigned.of_to n) at 1.
  unfold N.of_uint. rewrite DecimalPos.Unsigned.of_uint_alt.
  pose proof (of_lu_bound (Decimal.rev (N.to_uint n))) as Hb.
  rewrite nb_digits_rev in Hb.
  eapply N.lt_le_trans; [exact Hb|].
  apply N.pow_le_mono_r; [lia|].
  pose proof (length_nilzero (N.to_uint n)). lia.
Qed.

Lemma decimal_digits_ge (k : nat) (n : N) :
  (10 ^ N.of_nat k <= n)%N -> (k < String.length (decimal n))%nat.
Proof.
  intros Hk. pose proof (length_decimal n) as Hn.
  destruct (decide (k < String.length (decimal n))%nat) as [|Hge]; [done|].
  exfalso.
  assert (10 ^ N.of_nat (String.length (decimal n)) <= 10 ^ N.of_nat k)%N.
  { apply N.pow_le_mono_r; lia. }
  lia.
Qed.

Lemma string_length_app (s t : string) :
  String.length (s +:+ t) = (String.length s + String.length t)%nat.
Proof. induction s as [|c s IH]; simpl; [done | by rewrite IH]. Qed.

Lemma length_zeros (k : nat) : String.length (zeros k) = k.
Proof. induction k as [|k IH]; simpl; [done | by rewrite IH]. Qed.

(** C10: outside 0..9999 nothing is cut off.  From 10000 on the digits of
    the index stand unpadded between the underscore and the extension; a
    negative index keeps its minus sign, which counts toward the width of
    four, so -5 gives [_-005.abf]. *)
Theorem build_filename_outside_range (prefix_date : string) (index : Z) :
  index < 0 \/ 9999 < index ->
  let digits := decimal (Z.abs_N index) in
  build_filename prefix_date index
    = prefix_date +:+ "_"
        +:+ (if index <? 0
             then "-" +:+ zeros (3 - String.length digits) +:+ digits
             else digits)
        +:+ ".abf"
  /\ String.length (format_0d 4 index) = Nat.max 4 (String.length (int_str index))
  /\ build_filename prefix_date (-5) = prefix_date +:+ "_-005.abf".
Proof.
  intros Hout digits. unfold build_filename, format_0d, int_str. fold digits.
  destruct (Z.ltb_spec index 0) as [Hneg|Hpos].
  - split; [|split]; [| |reflexivity].
    + replace (4 - (String.length "-" + String.length digits))%nat
        with (3 - String.length digits)%nat by (simpl; lia).
      reflexivity.
    + rewrite !string_length_app, length_zeros. simpl String.length. lia.
  - assert (4 < String.length digits)%nat as Hlen.
    { apply decimal_digits_ge. simpl N.of_nat. lia. }
    split; [|split]; [| |reflexivity].
    + replace (4 - (String.length "" + String.length digits))%nat with 0%nat
        by (simpl; lia).
      reflexivity.
    + rewrite !string_length_app, length_zeros. simpl String.length. lia.
Qed.

(** A six-digit index. *)
Lemma build_filename_outside_range_witness :
  let digits := decimal (Z.abs_N 123456) in
  build_filename "2024_02_21" 123456
    = "2024_02_21" +:+ "_"
        +:+ (if 123456 <? 0
             then "-" +:+ zeros (3 - String.length digits) +:+ digits
             else digits)
        +:+ ".abf"
  /\ String.length (format_0d 4 123456) = Nat.max 4 (String.length (int_str 123456))
  /\ build_filename "2024_02_21" (-5) = "2024_02_21" +:+ "_-005.abf".
Proof. apply (build_filename_outside_range "2024_02_21" 123456). lia. Defined.

(** ** The filter *)

Section FilterProps.
Context {K : filter_kernel}.

Lemma half_is_div2 (fs_hz : Q) : ((1 # 2) * fs_hz == fs_hz / 2)%Q.
Proof. unfold Qdiv. change (/ 2)%Q with (1 # 2)%Q. apply Qmult_comm. Qed.

Lemma nyquist_guard_true (cutoff_hz fs_hz : Q) :
  Qle_bool ((1 # 2) * fs_hz) cutoff_hz = true <-> (fs_hz / 2 <= cutoff_hz)%Q.
Proof. rewrite Qle_bool_iff, half_is_div2. reflexivity. Qed.

Lemma nyquist_guard_false (cutoff_hz fs_hz : Q) :
  Qle_bool ((1 # 2) * fs_hz) cutoff_hz = false <-> (cutoff_hz < fs_hz / 2)%Q.
Proof.
  split.
  - intros Hf. apply Qnot_le_lt. intros Hle.
    apply nyquist_guard_true in Hle. congruence.
  - intros Hlt. destruct (Qle_bool _ _) eqn:E; [|done].
    apply nyquist_guard_true in E. exfalso. exact (Qlt_not_le _ _ Hlt E).
Qed.

Lemma lfilter_run_length (b a z x : list Q) :
  length (lfilter_run b a z x).1 = length x.
Proof.
  revert z. induction x as [|xm x IH]; intros z; [done|].
  cbn [lfilter_run]. destruct (lfilter_step b a z xm) as [y z'].
  specialize (IH z'). destruct (lfilter_run b a z' x) as [ys zf].
  simpl in *. by rewrite IH.
Qed.


Lemma odd_ext_length (x : list Q) (n : nat) :
  (n < length x)%nat -> length (odd_ext x n) = (n + length x + n)%nat.
Proof.
  intros Hn. unfold odd_ext. destruct (Nat.ltb_spec n 1) as [H0|H1]; [lia|].
  rewrite !length_app, !length_map, length_rev, !length_take.
  assert (length (tl x) = length x - 1)%nat as Ht by (destruct x; simpl; lia).
  assert (length (tl (rev x)) = length x - 1)%nat as Hr.
  { rewrite <- (length_rev x). destruct (rev x); simpl; lia. }
  rewrite Ht, Hr. lia.
Qed.












Lemma low_pass_filter_raises (data : list Q) (cutoff_hz fs_hz : Q) (order : nat) :
  (fs_hz / 2 <= cutoff_hz)%Q ->
  low_pass_filter data cutoff_hz fs_hz order
    = Err (nyquist_error cutoff_hz ((1 # 2) * fs_hz)).
Proof.
  intros H. unfold low_pass_filter.
  by rewrite (proj2 (nyquist_guard_true cutoff_hz fs_hz) H).
Qed.

Lemma low_pass_filter_proceeds (data : list Q) (cutoff_hz fs_hz : Q) (order : nat) :
  (cutoff_hz < fs_hz / 2)%Q ->
  low_pass_filter data cutoff_hz fs_hz order
    = design_and_apply data cutoff_hz ((1 # 2) * fs_hz) order.
Proof.
  intros H. unfold low_pass_filter.
  by rewrite (proj2 (nyquist_guard_false cutoff_hz fs_hz) H).
Qed.


End FilterProps.



(** ** Effects *)

Lemma bind_apply {A B : Type} (m : M A) (f : A -> M B) (w : world) :
  (m ≫= f) w
  = match m w with
    | (w', Ok a) => f a w'
    | (w', Err e) => (w', Err e)
    end.
Proof. reflexivity. Qed.


(** ** Paths *)

Lemma string_app_cons (c : ascii) (s t : string) :
  String c s +:+ t = String c (s +:+ t).
Proof. reflexivity. Qed.

Lemma string_app_nil (t : string) : EmptyString +:+ t = t.
Proof. reflexivity. Qed.

Lemma string_app_assoc (s t u : string) : (s +:+ t) +:+ u = s +:+ (t +:+ u).
Proof.
  induction s as [|c s IH]; [done|]. rewrite !string_app_cons. by f_equal.
Qed.

(** Two strings that end in suffixes of one length end in the same suffix. *)
Lemma string_app_suffix_eq (x1 x2 t1 t2 : string) :
  x1 +:+ t1 = x2 +:+ t2 -> String.length t1 = String.length t2 -> t1 = t2.
Proof.
  revert x2. induction x1 as [|c x1 IH]; intros [|d x2] Heq Hlen;
    rewrite ?string_app_cons, ?string_app_nil in Heq.
  - done.
  - subst t1. simpl in Hlen. rewrite string_length_app in Hlen. lia.
  - subst t2. simpl in Hlen. rewrite string_length_app in Hlen. lia.
  - injection Heq as _ Heq. eauto.
Qed.

Lemma split_slash_no_slash (t : string) : has_slash t = false -> split_slash t = [t].
Proof.
  induction t as [|c t IH]; intros Hs; [done|].
  simpl in Hs. apply orb_false_elim in Hs as [Hc Ht].
  cbn [split_slash]. rewrite Hc, (IH Ht). done.
Qed.

(** Appending a slash-free string extends the last component. *)
Lemma split_slash_app (s t : string) :
  has_slash t = false ->
  exists init l, split_slash s = init ++ [l] /\ split_slash (s +:+ t) = init ++ [l +:+ t].
Proof.
  intros Ht. induction s as [|c s (init & l & Hs & Hst)].
  - exists [], EmptyString. split; [done|]. by apply split_slash_no_slash.
  - rewrite string_app_cons. cbn [split_slash]. destruct (Ascii.eqb c "/").
    + exists (EmptyString :: init), l. rewrite Hs, Hst. done.
    + rewrite Hs, Hst. destruct init as [|h init]; cbn [app].
      * by exists [], (String c l).
      * by exists (String c h :: init), l.
Qed.

Lemma kept_part_long (x : string) : (2 <= String.length x)%nat -> kept_part x = true.
Proof.
  destruct x as [|c [|d x]]; simpl; try lia. intros _.
  unfold kept_part. cbn [String.eqb negb andb]. by destruct (Ascii.eqb c ".").
Qed.

Lemma concat_snoc (sep : string) (l : list string) (x : string) :
  exists y, String.concat sep (l ++ [x]) = y +:+ x.
Proof.
  induction l as [|h l (y & IH)]; [by exists EmptyString|].
  cbn [app String.concat]. destruct (l ++ [x]) as [|h' l'] eqn:E.
  { by destruct l. }
  rewrite IH. exists (h +:+ sep +:+ y). by rewrite !string_app_assoc.
Qed.

(** The string of [p / (s + t)] ends in [t] when [t] has no slash and at
    least two characters. *)
Lemma path_str_joinpath_suffix (p : Path) (s t : string) :
  has_slash t = false -> (2 <= String.length t)%nat ->
  exists x, path_str (joinpath p (s +:+ t)) = x +:+ t.
Proof.
  intros Ht Hlen.
  destruct (split_slash_app s t Ht) as (init & l & _ & Hst).
  assert (exists R P, path_root (joinpath p (s +:+ t)) = R
                      /\ path_parts (joinpath p (s +:+ t)) = P ++ [l +:+ t])
    as (R & P & HR & HP).
  { unfold joinpath, parse_path. cbn [path_root path_parts].
    rewrite Hst, List.filter_app. cbn [List.filter].
    rewrite kept_part_long by (rewrite string_length_app; lia).
    destruct (String.eqb _ _); cbn [path_root path_parts]; eexists _, _; split; try done.
    by rewrite app_assoc. }
  unfold path_str. rewrite HR, HP.
  destruct (concat_snoc "/" P (l +:+ t)) as (y & Hy).
  assert (R +:+ String.concat "/" (P ++ [l +:+ t]) = (R +:+ y +:+ l) +:+ t) as Hfull.
  { rewrite Hy, !string_app_assoc. done. }
  destruct R; [destruct (P ++ [l +:+ t]) eqn:E; [by destruct P|]|]; eauto.
Qed.

Lemma out_files_distinct (abf_path outdir : Path) :
  path_str (joinpath outdir (path_stem abf_path +:+ ".filtered." +:+ "png"))
  <> path_str (joinpath outdir (path_stem abf_path +:+ ".filtered." +:+ "pdf")).
Proof.
  destruct (path_str_joinpath_suffix outdir (path_stem abf_path) ".filtered.png")
    as (x1 & H1); [done | simpl; lia |].
  destruct (path_str_joinpath_suffix outdir (path_stem abf_path) ".filtered.pdf")
    as (x2 & H2); [done | simpl; lia |].
  change (".filtered." +:+ "png") with ".filtered.png".
  change (".filtered." +:+ "pdf") with ".filtered.pdf".
  rewrite H1, H2. intros Heq.
  apply string_app_suffix_eq in Heq; [discriminate Heq | done].
Qed.

Lemma split_root_no_slash (s : string) : has_slash s = false -> split_root s = EmptyString.
Proof.
  destruct s as [|c s]; [done|]. cbn [has_slash]. intros Hs.
  apply orb_false_elim in Hs as [Hc _].
  destruct c as [[] [] [] [] [] [] [] []]; try reflexivity; discriminate Hc.
Qed.

Lemma has_slash_app (s t : string) : has_slash (s +:+ t) = has_slash s || has_slash t.
Proof.
  induction s as [|c s IH]; [done|].
  rewrite string_app_cons. cbn [has_slash]. by rewrite IH, orb_assoc.
Qed.

(** Joining a single component appends it to the parts. *)
Lemma joinpath_single (p : Path) (s : string) :
  has_slash s = false -> (2 <= String.length s)%nat ->
  joinpath p s = {| path_root := path_root p; path_parts := path_parts p ++ [s] |}.
Proof.
  intros Hs Hlen. unfold joinpath, parse_path. cbn [path_root path_parts].
  rewrite (split_root_no_slash s Hs), (split_slash_no_slash s Hs).
  cbn [List.filter String.eqb]. by rewrite (kept_part_long s Hlen).
Qed.

(** ** The file system and the plot of one file *)

Section FileProps.

Lemma dirs_added_refl (L : list string) (m : gmap string node) : dirs_added L m m.
Proof. intros s. by left. Qed.

Lemma dirs_added_trans (L : list string) (m1 m2 m3 : gmap string node) :
  dirs_added L m1 m2 -> dirs_added L m2 m3 -> dirs_added L m1 m3.
Proof.
  intros H12 H23 s. destruct (H12 s) as [E1|(N1 & D1 & I1)], (H23 s) as [E2|(N2 & D2 & I2)].
  - left. congruence.
  - right. rewrite <- E1. done.
  - right. rewrite E2. done.
  - congruence.
Qed.

Lemma dirs_added_mono (L L' : list string) (m m' : gmap string node) :
  L ⊆ L' -> dirs_added L m m' -> dirs_added L' m m'.
Proof.
  intros HL H s. destruct (H s) as [?|(? & ? & ?)]; [by left|right]. auto.
Qed.

Lemma os_stat_insert_dir (m : gmap string node) (k s : string) :
  os_stat m s = Some Dir -> os_stat (<[k := Dir]> m) s = Some Dir.
Proof.
  unfold os_stat. destruct (_ || _); [done|].
  intros H. destruct (decide (k = s)) as [->|Hne].
  - by rewrite lookup_insert_eq.
  - by rewrite lookup_insert_ne.
Qed.

Lemma os_stat_insert_eq_dir (m : gmap string node) (k : string) :
  os_stat (<[k := Dir]> m) k = Some Dir.
Proof. unfold os_stat. destruct (_ || _); [done|]. by rewrite lookup_insert_eq. Qed.

Lemma os_stat_None (m : gmap string node) (s : string) :
  os_stat m s = None -> m !! s = None.
Proof. unfold os_stat. by destruct (_ || _). Qed.

Lemma path_parent_mk (root x : string) (rparent : list string) :
  path_parent (mk_path root (x :: rparent)) = mk_path root rparent.
Proof.
  unfold path_parent, mk_path. cbn [path_root path_parts rev].
  by rewrite removelast_last.
Qed.

Lemma path_parent_mk_nil (root : string) :
  path_parent (mk_path root []) = mk_path root [].
Proof. reflexivity. Qed.

(** What [os.mkdir] does, by cases. *)
Lemma os_mkdir_cases (p : Path) (w : world) :
  (exists e, os_mkdir p w = (w, Err e)
             /\ (is_FileNotFoundError e = true
                 <-> os_stat (fs w) (path_str (path_parent p)) = None))
  \/ (os_mkdir p w = (with_fs w (<[path_str p := Dir]> (fs w)), Ok tt)
      /\ os_stat (fs w) (path_str (path_parent p)) = Some Dir
      /\ os_stat (fs w) (path_str p) = None).
Proof.
  unfold os_mkdir.
  destruct (os_stat (fs w) (path_str (path_parent p))) as [[|c]|] eqn:Ep.
  - destruct (os_stat (fs w) (path_str p)) as [nd|] eqn:Es.
    + left. eexists. split; [done|]. by cbn.
    + right. done.
  - left. eexists. split; [done|]. by cbn.
  - left. eexists. split; [done|]. by cbn.
Qed.

Lemma Path_is_dir_apply (p : Path) (w : world) :
  Path_is_dir p w
  = (w, Ok (match os_stat (fs w) (path_str p) with Some Dir => true | _ => false end)).
Proof. reflexivity. Qed.

(** The [except OSError] arm of [Path.mkdir] with [exist_ok=True]. *)
Lemma exist_ok_cases (p : Path) (e : exn) (w w' : world) (r : result unit) :
  (d ← Path_is_dir p; if d : bool then mret tt else raise e) w = (w', r) ->
  w' = w /\ (r = Ok tt -> is_dir_in (fs w) p).
Proof.
  rewrite bind_apply, Path_is_dir_apply. unfold is_dir_in.
  destruct (os_stat (fs w) (path_str p)) as [[|c]|]; intros [= <- <-]; done.
Qed.

Lemma mkdir_parents_unfold (root : string) (rparts : list string) (w : world) :
  let self := mk_path root rparts in
  let exist_ok (e : exn) : M unit :=
    d ← Path_is_dir self; if d : bool then mret tt else raise e in
  mkdir_parents root rparts w
  = match os_mkdir self w with
    | (w1, Ok a) => (w1, Ok a)
    | (w1, Err e) =>
        if is_FileNotFoundError e then
          match rparts with
          | [] => (w1, Err e)
          | _ :: rparent =>
              match mkdir_parents root rparent w1 with
              | (w2, Ok _) =>
                  match os_mkdir self w2 with
                  | (w3, Ok a) => (w3, Ok a)
                  | (w3, Err e') =>
                      if is_FileNotFoundError e' then (w3, Err e') else exist_ok e' w3
                  end
              | (w2, Err e2) => (w2, Err e2)
              end
          end
        else exist_ok e w1
    end.
Proof.
  destruct rparts as [|x rparent]; cbn [mkdir_parents]; unfold try_except, mk_path;
    destruct (os_mkdir _ w) as [w1 [a|e]]; try reflexivity;
    destruct (is_FileNotFoundError e); try reflexivity.
  rewrite bind_apply. destruct (mkdir_parents root rparent w1) as [w2 [[]|e2]]; try reflexivity.
  destruct (os_mkdir _ w2) as [w3 [a|e']]; try reflexivity.
  by destruct (is_FileNotFoundError e').
Qed.

Lemma dirs_added_insert (L : list string) (m : gmap string node) (s : string) :
  m !! s = None -> s ∈ L -> dirs_added L m (<[s := Dir]> m).
Proof.
  intros Hn Hin k. destruct (decide (s = k)) as [<-|Hne].
  - right. by rewrite lookup_insert_eq.
  - left. by rewrite lookup_insert_ne.
Qed.

(** In a tree, a directory on the lineage has all of its lineage. *)
Lemma dir_lineage (m : gmap string node) (root : string) (rparts : list string) :
  tree_along m root rparts -> is_dir_in m (mk_path root rparts) ->
  Forall (is_dir_in m) (lineage root rparts).
Proof.
  induction rparts as [|x rparent IH]; intros Ht Hd; [constructor|].
  destruct Ht as [Hup Ht]. constructor; [exact Hd|]. apply IH; auto.
Qed.

Lemma is_dir_in_insert (m : gmap string node) (k : string) (p : Path) :
  is_dir_in m p -> is_dir_in (<[k := Dir]> m) p.
Proof. apply os_stat_insert_dir. Qed.

(** [Path.mkdir(parents=True, exist_ok=True)]: the streams are untouched;
    only directories of the lineage are added; on success the path is a
    directory, and so is all its lineage when the file system was a tree
    along it. *)
Lemma mkdir_parents_spec (root : string) (rparts : list string) (w w' : world)
    (r : result unit) :
  mkdir_parents root rparts w = (w', r) ->
  stdout w' = stdout w /\ stderr w' = stderr w
  /\ dirs_added (map path_str (lineage root rparts)) (fs w) (fs w')
  /\ (r = Ok tt ->
      is_dir_in (fs w') (mk_path root rparts)
      /\ (tree_along (fs w) root rparts ->
          Forall (is_dir_in (fs w')) (lineage root rparts))).
Proof.
  revert w w' r. induction rparts as [|x rparent IH]; intros w w' r;
    rewrite mkdir_parents_unfold; cbv zeta.
  - destruct (os_mkdir_cases (mk_path root []) w) as [(e & -> & Hfnf)|(-> & Hpar & Hself)].
    + destruct (is_FileNotFoundError e).
      * intros [= <- <-]. split_and!; try done. apply dirs_added_refl.
      * intros Hex. apply exist_ok_cases in Hex as [-> Hdir].
        split_and!; try done; [apply dirs_added_refl|].
        intros Hr. split; [auto | constructor].
    + rewrite path_parent_mk_nil in Hpar. congruence.
  - destruct (os_mkdir_cases (mk_path root (x :: rparent)) w)
      as [(e & -> & Hfnf)|(-> & Hpar & Hself)].
    + destruct (is_FileNotFoundError e).
      * destruct (mkdir_parents root rparent w) as [w1 r1] eqn:Hrec.
        destruct (IH _ _ _ Hrec) as (Ho & He & Hadd & Hok).
        assert (dirs_added (map path_str (lineage root (x :: rparent))) (fs w) (fs w1))
          as Hadd1.
        { eapply dirs_added_mono; [|exact Hadd]. cbn [lineage map].
          intros s Hs. apply elem_of_cons. by right. }
        destruct r1 as [[]|e1]; [|by intros [= <- <-]].
        destruct (Hok eq_refl) as [Hpdir Hplin].
        destruct (os_mkdir_cases (mk_path root (x :: rparent)) w1)
          as [(e2 & -> & Hfnf2)|(-> & Hpar2 & Hself2)].
        -- destruct (is_FileNotFoundError e2); [by intros [= <- <-]|].
           intros Hex. apply exist_ok_cases in Hex as [-> Hdir].
           split_and!; try done. intros Hr. split; [auto|].
           intros [_ Ht]. constructor; auto.
        -- intros [= <- <-]. cbn [with_fs fs stdout stderr]. split_and!; try done.
           ++ eapply dirs_added_trans; [exact Hadd1|].
              apply dirs_added_insert; [by apply os_stat_None|].
              cbn [lineage map]. apply elem_of_cons. by left.
           ++ intros _. split; [apply os_stat_insert_eq_dir|].
              intros [_ Ht]. constructor; [apply os_stat_insert_eq_dir|].
              eapply Forall_impl; [exact (Hplin Ht)|].
              intros q. apply is_dir_in_insert.
      * intros Hex. apply exist_ok_cases in Hex as [-> Hdir].
        split_and!; try done; [apply dirs_added_refl|].
        intros Hr. split; [auto|]. intros Ht. apply dir_lineage; auto.
    + intros [= <- <-]. cbn [with_fs fs stdout stderr]. split_and!; try done.
      * apply dirs_added_insert; [by apply os_stat_None|]. cbn [lineage map].
        apply elem_of_cons. by left.
      * intros _. split; [apply os_stat_insert_eq_dir|].
        intros [_ Ht]. constructor; [apply os_stat_insert_eq_dir|].
        rewrite path_parent_mk in Hpar.
        eapply Forall_impl; [exact (dir_lineage _ _ _ Ht Hpar)|].
        intros q. apply is_dir_in_insert.
Qed.

(** What writing a file does, by cases. *)
Lemma os_write_cases (p : Path) (c : content) (w w' : world) (r : result unit) :
  os_write p c w = (w', r) ->
  (r = Ok tt /\ w' = with_fs w (<[path_str p := File c]> (fs w))
   /\ os_stat (fs w) (path_str p) <> Some Dir)
  \/ (exists e, r = Err e /\ w' = w).
Proof.
  unfold os_write.
  destruct (os_stat (fs w) (path_str (path_parent p))) as [[|c0]|];
    [|intros [= <- <-]; right; eauto..].
  destruct (os_stat (fs w) (path_str p)) as [[|c1]|] eqn:Es; intros [= <- <-];
    [right; eauto | left; done..].
Qed.

(** A directory stays one when a file is written. *)
Lemma os_write_keeps_dir (p q : Path) (c : content) (w w' : world) :
  os_write p c w = (w', Ok tt) -> is_dir_in (fs w) q -> is_dir_in (fs w') q.
Proof.
  intros Hw Hq. apply os_write_cases in Hw as [(_ & -> & Hnd)|(e & [=] & _)].
  unfold is_dir_in in *. cbn [with_fs fs].
  destruct (decide (path_str p = path_str q)) as [Heq|Hne].
  - rewrite Heq in Hnd. done.
  - unfold os_stat in Hq |- *. by rewrite lookup_insert_ne.
Qed.

Lemma os_write_frame (p : Path) (c : content) (w w' : world) (r : result unit) :
  os_write p c w = (w', r) ->
  stdout w' = stdout w /\ stderr w' = stderr w
  /\ forall s, s <> path_str p -> fs w' !! s = fs w !! s.
Proof.
  intros Hw. apply os_write_cases in Hw as [(_ & -> & _)|(e & _ & ->)]; [|done].
  cbn [with_fs fs stdout stderr]. split_and!; try done.
  intros s Hs. by rewrite lookup_insert_ne.
Qed.

Lemma os_stat_lookup (m m' : gmap string node) (s : string) :
  m' !! s = m !! s -> os_stat m' s = os_stat m s.
Proof. intros H. unfold os_stat. by rewrite H. Qed.

End FileProps.

Section PlotProps.
Context {K : filter_kernel}.

Lemma plot_sweep_unfold (abf : ABF) (cutoff_hz fs_hz : Q) (sweep : nat) (fig : Figure)
    (w : world) :
  plot_sweep abf cutoff_hz fs_hz sweep fig w
  = match sweeps abf !! sweep with
    | Some (sweepX, sweepY) =>
        match low_pass_filter sweepY cutoff_hz fs_hz 4 with
        | Ok y => (w, Ok (ax_plot fig sweepX y (4 # 5)))
        | Err e => (w, Err e)
        end
    | None => (w, Err (Raise ValueError [Str "invalid sweep number"]))
    end.
Proof.
  unfold plot_sweep, setSweep, lift, mbind, M_bind.
  destruct (sweeps abf !! sweep) as [[sx sy]|]; [|done].
  by destruct (low_pass_filter sy cutoff_hz fs_hz 4).
Qed.

(** Filtering and plotting the sweeps touches nothing of the world. *)
Lemma plot_sweeps_world (abf : ABF) (cutoff_hz fs_hz : Q) (l : list nat) (fig : Figure)
    (w w' : world) (r : result Figure) :
  foldM (plot_sweep abf cutoff_hz fs_hz) l fig w = (w', r) -> w' = w.
Proof.
  revert fig. induction l as [|i l IH]; intros fig; [by intros [= <- <-]|].
  cbn [foldM]. rewrite bind_apply, plot_sweep_unfold.
  destruct (sweeps abf !! i) as [[sx sy]|]; [|by intros [= <- <-]].
  destruct (low_pass_filter sy cutoff_hz fs_hz 4); [apply IH | by intros [= <- <-]].
Qed.


(** Whatever its outcome, [plot_one_abf] prints nothing and leaves every
    path outside [touched] as it was. *)
Lemma plot_one_abf_frame (abf_path : Path) (cutoff_hz : Q) (baseline : Q * Q)
    (measure_t : Q) (outdir : Path) (w w' : world) (r : result unit) :
  plot_one_abf abf_path cutoff_hz baseline measure_t outdir w = (w', r) ->
  stdout w' = stdout w /\ stderr w' = stderr w
  /\ forall s, s ∉ touched abf_path outdir -> fs w' !! s = fs w !! s.
Proof.
  unfold plot_one_abf. rewrite bind_apply. unfold pyabf_ABF.
  destruct (os_stat (fs w) (path_str abf_path)) as [[|[abf|e|fig0 dpi]]|];
    try (by intros [= <- <-]).
  rewrite bind_apply. unfold lift at 1.
  destruct (get_sample_rate abf) as [fs_hz|e]; [|by intros [= <- <-]].
  rewrite bind_apply.
  destruct (foldM (plot_sweep abf cutoff_hz fs_hz) _ subplots w) as [w0 [fig|e]] eqn:Hsw;
    apply plot_sweeps_world in Hsw as ->; [|by intros [= <- <-]].
  destruct baseline as [base1 base2]. rewrite bind_apply.
  destruct (Path_mkdir outdir w) as [w1 r1] eqn:Hmk.
  unfold Path_mkdir in Hmk. apply mkdir_parents_spec in Hmk as (Ho1 & He1 & Hadd & _).
  assert (forall s, s ∉ touched abf_path outdir -> fs w1 !! s = fs w !! s) as Hf1.
  { intros s Hs. destruct (Hadd s) as [?|(_ & _ & Hin)]; [done|].
    exfalso. apply Hs. unfold touched, path_lineage. apply elem_of_app. by left. }
  destruct r1 as [[]|e]; [|by intros [= <- <-]].
  unfold touched in *. cbn [out_files map foldM] in *. rewrite bind_apply.
  match goal with |- context [savefig ?f _ 300 w1] => set (fig' := f) end.
  unfold savefig.
  destruct (os_write _ _ w1) as [w2 r2] eqn:Hpng.
  apply os_write_frame in Hpng as (Ho2 & He2 & Hf2).
  assert (forall s, s ∉ map path_str (path_lineage outdir)
                        ++ [path_str (joinpath outdir
                                        (path_stem abf_path +:+ ".filtered." +:+ "png"));
                            path_str (joinpath outdir
                                        (path_stem abf_path +:+ ".filtered." +:+ "pdf"))] ->
                    fs w2 !! s = fs w !! s) as Hf2'.
  { intros s Hs. rewrite Hf2; [by apply Hf1|].
    intros ->. apply Hs. apply elem_of_app. right. apply elem_of_cons. by left. }
  destruct r2 as [[]|e]; [|intros [= <- <-]; split_and!; [congruence..|exact Hf2']].
  rewrite bind_apply.
  destruct (os_write _ _ w2) as [w3 r3] eqn:Hpdf.
  apply os_write_frame in Hpdf as (Ho3 & He3 & Hf3).
  assert (forall s, s ∉ map path_str (path_lineage outdir)
                        ++ [path_str (joinpath outdir
                                        (path_stem abf_path +:+ ".filtered." +:+ "png"));
                            path_str (joinpath outdir
                                        (path_stem abf_path +:+ ".filtered." +:+ "pdf"))] ->
                    fs w3 !! s = fs w !! s) as Hf3'.
  { intros s Hs. rewrite Hf3; [by apply Hf2'|].
    intros ->. apply Hs. apply elem_of_app. right.
    apply elem_of_cons. right. apply elem_of_cons. by left. }
  destruct r3 as [[]|e]; intros [= <- <-]; (split_and!; [congruence..|exact Hf3']).
Qed.


End PlotProps.


(** ** The batch loop *)

Section BatchProps.
Context {K : filter_kernel}.

(** One iteration of the loop, by whether the file exists when it is reached. *)
Lemma main_body_unfold (args : Args) (n : Z) (missing_files : list string) (w : world) :
  main_body args n missing_files w
  = match os_stat (fs w) (path_str (fpath_of args n)) with
    | Some _ =>
        (after_plot (fpath_of args n)
           (plot_one_abf (fpath_of args n) (cutoff args) (baseline args) (measure args)
              (outdir args) w),
         Ok missing_files)
    | None => (w, Ok (missing_files ++ [path_str (fpath_of args n)]))
    end.
Proof.
  unfold main_body, Path_exists, mbind, M_bind, try_except.
  destruct (os_stat (fs w) (path_str (fpath_of args n))) as [nd|] eqn:E.
  - rewrite bool_decide_eq_true_2 by eauto. cbn [negb].
    destruct (plot_one_abf _ _ _ _ _ w) as [w1 [[]|e]]; reflexivity.
  - rewrite bool_decide_eq_false_2 by (intros [? ?]; done). reflexivity.
Qed.

Lemma main_body_total (args : Args) (n : Z) (missing_files : list string) (w : world) :
  exists w' extra, main_body args n missing_files w = (w', Ok (missing_files ++ extra)).
Proof.
  rewrite main_body_unfold. destruct (os_stat _ _).
  - eexists _, []. by rewrite app_nil_r.
  - by eexists _, _.
Qed.

(** The loop never raises, and the list of missing files only grows. *)
Lemma main_loop_total (args : Args) (ns : list Z) (missing_files : list string) (w : world) :
  exists w' extra, main_loop args ns missing_files w = (w', Ok (missing_files ++ extra)).
Proof.
  unfold main_loop. revert missing_files w.
  induction ns as [|n ns IH]; intros missing_files w.
  - exists w, []. by rewrite app_nil_r.
  - cbn [foldM]. unfold mbind, M_bind.
    destruct (main_body_total args n missing_files w) as (w1 & ex1 & ->).
    destruct (IH (missing_files ++ ex1) w1) as (w2 & ex2 & ->).
    exists w2, (ex1 ++ ex2). by rewrite app_assoc.
Qed.

Lemma main_loop_cons (args : Args) (n : Z) (ns : list Z) (missing_files : list string)
    (w : world) :
  main_loop args (n :: ns) missing_files w
  = match main_body args n missing_files w with
    | (w', Ok m') => main_loop args ns m' w'
    | (w', Err e) => (w', Err e)
    end.
Proof. reflexivity. Qed.


Lemma print_lines_spec (lines : list string) (w : world) :
  foldM (fun m _ => print_out [Str (" - " +:+ m)]) lines tt w
  = (add_stdout w (map (fun m => [Str (" - " +:+ m)]) lines), Ok tt).
Proof.
  revert w. induction lines as [|m lines IH]; intros w.
  - destruct w. unfold add_stdout. cbn. by rewrite app_nil_r.
  - cbn [foldM]. unfold mbind, M_bind. cbn [print_out]. rewrite IH.
    unfold add_stdout. cbn. by rewrite <- app_assoc.
Qed.

Lemma report_missing_spec (missing_files : list string) (w : world) :
  report_missing missing_files w = (add_stdout w (warning_block missing_files), Ok tt).
Proof.
  destruct missing_files as [|m ms].
  - destruct w. unfold add_stdout. cbn. by rewrite app_nil_r.
  - unfold report_missing, warning_block, mbind, M_bind. cbn [print_out].
    rewrite print_lines_spec. unfold add_stdout. cbn [fs stdout stderr].
    by rewrite <- app_assoc.
Qed.

Lemma main_spec (args : Args) (w : world) :
  exists w1 missing_files,
    main_loop args (py_range (start args) (end_ args + 1)) [] w = (w1, Ok missing_files)
    /\ main args w = (add_stdout w1 (warning_block missing_files), Ok tt).
Proof.
  destruct (main_loop_total args (py_range (start args) (end_ args + 1)) [] w)
    as (w1 & ms & Hloop).
  exists w1, ms. split; [exact Hloop|].
  unfold main, mbind, M_bind. rewrite Hloop. apply report_missing_spec.
Qed.







(** C2: a cutoff at or above half the sampling rate makes the filter call
    raise a [ValueError] whose message carries the cutoff and the Nyquist
    frequency computed from the sampling rate.  In the batch, a recording
    with such a sampling rate (and at least one sweep) costs its own
    iteration only: the message goes to stderr, nothing is written, and the
    loop goes on with the next index. *)
Theorem cutoff_at_or_above_nyquist (data : list Q) (cutoff_hz fs_hz : Q) (order : nat) :
  (fs_hz / 2 <= cutoff_hz)%Q ->
  low_pass_filter data cutoff_hz fs_hz order
    = Err (Raise ValueError
             [Str "Cutoff ("; FloatRepr cutoff_hz;
              Str " Hz) must be less than Nyquist (";
              FloatFixed 1 ((1 # 2) * fs_hz); Str " Hz)."])
  /\ forall (args : Args) (n : Z) (ns : list Z) (missing_files : list string)
       (w : world) (abf : ABF),
       cutoff args = cutoff_hz ->
       os_stat (fs w) (path_str (fpath_of args n)) = Some (File (Recording abf)) ->
       get_sample_rate abf = Ok fs_hz ->
       sweeps abf <> [] ->
       main_loop args (n :: ns) missing_files w
         = main_loop args ns missing_files
             (add_stderr w
                [error_line (fpath_of args n)
                   (nyquist_error cutoff_hz ((1 # 2) * fs_hz))]).
Proof.
  intros Hny. split; [by apply low_pass_filter_raises|].
  intros args n ns missing_files w abf Hcut Hfile Hrate Hsweeps.
  rewrite main_loop_cons, main_body_unfold, Hfile.
  assert (plot_one_abf (fpath_of args n) (cutoff args) (baseline args) (measure args)
            (outdir args) w
          = (w, Err (nyquist_error cutoff_hz ((1 # 2) * fs_hz)))) as ->; [|done].
  unfold plot_one_abf, pyabf_ABF, mbind at 1, M_bind at 1. rewrite Hfile.
  unfold lift at 1, mbind at 1, M_bind at 1. rewrite Hrate.
  unfold sweepCount. destruct (sweeps abf) as [|[sx sy] rest] eqn:Hs; [done|].
  cbn [length seq foldM]. rewrite !bind_apply.
  rewrite plot_sweep_unfold, Hs. cbn [lookup list_lookup].
  rewrite Hcut, (low_pass_filter_raises sy cutoff_hz fs_hz 4 Hny). reflexivity.
Qed.

End BatchProps.



(** A cutoff of 1 kHz on a recording sampled at 1 kHz. *)
Lemma cutoff_at_or_above_nyquist_witness :
  @low_pass_filter example_kernel (ramp 20) 1000 1000 4
    = Err (Raise ValueError
             [Str "Cutoff ("; FloatRepr 1000;
              Str " Hz) must be less than Nyquist (";
              FloatFixed 1 ((1 # 2) * 1000); Str " Hz)."])
  /\ @main_loop example_kernel example_args (77 :: [78]) [] slow_world
     = @main_loop example_kernel example_args [78] []
         (add_stderr slow_world
            [error_line (fpath_of example_args 77)
               (nyquist_error 1000 ((1 # 2) * 1000))]).
Proof.
  pose proof (@cutoff_at_or_above_nyquist example_kernel (ramp 20) 1000 1000 4)
    as Hthm.
  destruct Hthm as [Hfilter Hbatch]; [unfold Qle; simpl; lia|].
  split; [exact Hfilter|].
  apply (Hbatch example_args 77 [78] [] slow_world slow_recording).
  - reflexivity.
  - vm_compute. reflexivity.
  - reflexivity.
  - discriminate.
Defined.

(** * Further properties *)

(** ** Reading the index back *)

Lemma uint_of_string_zeros (k : nat) (s : string) (d : Decimal.uint) :
  NilEmpty.uint_of_string s = Some d ->
  NilEmpty.uint_of_string (zeros k +:+ s) = Some (Nat.iter k Decimal.D0 d).
Proof.
  intros Hs. induction k as [|k IH]; [exact Hs|].
  cbn [zeros]. rewrite string_app_cons. cbn [NilEmpty.uint_of_string].
  rewrite IH. reflexivity.
Qed.

Lemma N_of_uint_leading_zeros (k : nat) (d : Decimal.uint) :
  N.of_uint (Nat.iter k Decimal.D0 d) = N.of_uint d.
Proof. induction k as [|k IH]; [done|]. cbn [Nat.iter]. exact IH. Qed.

Lemma to_uint_not_nil (n : N) : N.to_uint n <> Decimal.Nil.
Proof. destruct n as [|p]; [done|]. apply DecimalPos.Unsigned.to_uint_nonnil. Qed.

Lemma decimal_nilempty (n : N) : decimal n = NilEmpty.string_of_uint (N.to_uint n).
Proof.
  unfold decimal. pose proof (to_uint_not_nil n) as Hn.
  by destruct (N.to_uint n).
Qed.

Lemma uint_of_decimal (n : N) : NilEmpty.uint_of_string (decimal n) = Some (N.to_uint n).
Proof. rewrite decimal_nilempty. apply NilEmpty.usu. Qed.

(** The digits of a number start with a digit, not with a minus sign. *)
Lemma decimal_head (n : N) :
  exists c r, decimal n = String c r /\ Ascii.eqb c "-" = false /\ Ascii.eqb c "/" = false.
Proof.
  rewrite decimal_nilempty. pose proof (to_uint_not_nil n) as Hn.
  destruct (N.to_uint n); [done|..]; cbn [NilEmpty.string_of_uint]; by eexists _, _.
Qed.

Lemma zeros_decimal_head (k : nat) (n : N) :
  exists c r, zeros k +:+ decimal n = String c r /\ Ascii.eqb c "-" = false.
Proof.
  destruct k as [|k].
  - destruct (decimal_head n) as (c & r & -> & Hc & _). by exists c, r.
  - cbn [zeros]. rewrite string_app_cons. by eexists _, _.
Qed.

Lemma parse_unsigned (k : nat) (n : N) :
  option_map (fun d => Z.of_N (N.of_uint d))
    (NilEmpty.uint_of_string (zeros k +:+ decimal n)) = Some (Z.of_N n).
Proof.
  rewrite (uint_of_string_zeros k _ _ (uint_of_decimal n)). cbn [option_map].
  by rewrite N_of_uint_leading_zeros, DecimalN.Unsigned.of_to.
Qed.

Lemma parse_int_format (width : nat) (number : Z) :
  parse_int (format_0d width number) = Some number.
Proof.
  unfold format_0d. destruct (Z.ltb_spec number 0) as [Hneg|Hpos].
  - rewrite string_app_cons, string_app_nil. cbn [parse_int].
    change (Ascii.eqb "-" "-") with true. cbv iota.
    rewrite (uint_of_string_zeros _ _ _ (uint_of_decimal _)). cbn [option_map].
    rewrite N_of_uint_leading_zeros, DecimalN.Unsigned.of_to. f_equal. lia.
  - rewrite string_app_nil.
    destruct (zeros_decimal_head (width - (String.length "" + String.length (decimal (Z.abs_N number)))) (Z.abs_N number))
      as (c & r & Hcr & Hc).
    pose proof (parse_unsigned (width - (String.length "" + String.length (decimal (Z.abs_N number)))) (Z.abs_N number)) as Hp.
    rewrite Hcr in *. cbn [parse_int]. rewrite Hc, Hp. f_equal. lia.
Qed.

Lemma string_app_inv_tail (s s' t : string) : s +:+ t = s' +:+ t -> s = s'.
Proof.
  revert s'. induction s as [|c s IH]; intros [|c' s'] Heq;
    rewrite ?string_app_cons, ?string_app_nil in Heq.
  - done.
  - exfalso. apply (f_equal String.length) in Heq. cbn in Heq.
    rewrite string_length_app in Heq. lia.
  - exfalso. apply (f_equal String.length) in Heq. cbn in Heq.
    rewrite string_length_app in Heq. lia.
  - injection Heq as -> Heq. f_equal. by apply IH.
Qed.

Lemma string_app_inv_head (s t t' : string) : s +:+ t = s +:+ t' -> t = t'.
Proof.
  induction s as [|c s IH]; [done|]. rewrite !string_app_cons. intros [= H]. auto.
Qed.

(** X1: the formatted field reads back as the index, whatever the width and
    the sign; hence, for one prefix, two indices never share a file name. *)
Theorem build_filename_injective (prefix_date : string) (m n : Z) :
  (forall width, parse_int (format_0d width n) = Some n)
  /\ (build_filename prefix_date m = build_filename prefix_date n -> m = n).
Proof.
  split; [intros width; apply parse_int_format|].
  unfold build_filename. intros Heq.
  apply string_app_inv_head, string_app_inv_head, string_app_inv_tail in Heq.
  pose proof (parse_int_format 4 m) as Hm. rewrite Heq, parse_int_format in Hm.
  congruence.
Qed.

(** ** The names of the inputs and of the outputs *)

Lemma has_slash_zeros (k : nat) : has_slash (zeros k) = false.
Proof. induction k as [|k IH]; [done|]. cbn [zeros has_slash]. by rewrite IH. Qed.

Lemma has_slash_string_of_uint (d : Decimal.uint) :
  has_slash (NilEmpty.string_of_uint d) = false.
Proof. induction d; cbn [NilEmpty.string_of_uint has_slash]; by rewrite ?IHd. Qed.

Lemma has_slash_format (width : nat) (number : Z) :
  has_slash (format_0d width number) = false.
Proof.
  unfold format_0d. rewrite !has_slash_app, has_slash_zeros, decimal_nilempty,
    has_slash_string_of_uint. by destruct (number <? 0).
Qed.

Lemma has_slash_build_filename (prefix_date : string) (number : Z) :
  has_slash (build_filename prefix_date number) = has_slash prefix_date.
Proof.
  unfold build_filename. rewrite !has_slash_app, has_slash_format.
  cbn [has_slash]. change (Ascii.eqb "_" "/") with false.
  change (Ascii.eqb "." "/") with false. change (Ascii.eqb "a" "/") with false.
  change (Ascii.eqb "b" "/") with false. change (Ascii.eqb "f" "/") with false.
  cbn [orb]. by rewrite !orb_false_r.
Qed.

Lemma length_build_filename (prefix_date : string) (number : Z) :
  (2 <= String.length (build_filename prefix_date number))%nat.
Proof. unfold build_filename. rewrite !string_length_app. simpl String.length. lia. Qed.

Lemma rfind_dot_abf (s : string) : rfind_dot (s +:+ ".abf") = Some (String.length s).
Proof.
  induction s as [|c s IH]; [reflexivity|].
  rewrite string_app_cons. cbn [rfind_dot String.length]. by rewrite IH.
Qed.

Lemma substring_app (s t : string) : String.substring 0 (String.length s) (s +:+ t) = s.
Proof.
  induction s as [|c s IH]; [by destruct t|].
  rewrite string_app_cons. cbn [String.length String.substring]. by rewrite IH.
Qed.

Lemma path_stem_abf (root : string) (parts : list string) (s : string) :
  (0 < String.length s)%nat ->
  path_stem {| path_root := root; path_parts := parts ++ [s +:+ ".abf"] |} = s.
Proof.
  intros Hs. unfold path_stem, path_name. cbn [path_parts].
  rewrite last_last, rfind_dot_abf, string_length_app. simpl String.length.
  destruct (Nat.ltb_spec 0 (String.length s)) as [_|]; [|lia].
  destruct (Nat.ltb_spec (String.length s) (String.length s + 4 - 1)) as [_|]; [|lia].
  apply substring_app.
Qed.

Lemma path_str_nonempty (root : string) (parts : list string) :
  parts <> [] ->
  path_str {| path_root := root; path_parts := parts |} = root +:+ String.concat "/" parts.
Proof. intros Hp. unfold path_str. cbn [path_root path_parts]. by destruct root, parts. Qed.

Lemma concat_snoc_inj (sep : string) (l : list string) (a b : string) :
  String.concat sep (l ++ [a]) = String.concat sep (l ++ [b]) -> a = b.
Proof.
  induction l as [|h l IH]; [done|]. cbn [app String.concat].
  destruct (l ++ [a]) as [|ha la] eqn:Ea; [by destruct l|].
  destruct (l ++ [b]) as [|hb lb] eqn:Eb; [by destruct l|].
  intros Heq. apply string_app_inv_head, string_app_inv_head in Heq. auto.
Qed.

(** Two children of one directory have one path string only if they
    have one name. *)
Lemma path_str_child_inj (root : string) (parts : list string) (a b : string) :
  path_str {| path_root := root; path_parts := parts ++ [a] |}
  = path_str {| path_root := root; path_parts := parts ++ [b] |} -> a = b.
Proof.
  rewrite !path_str_nonempty by (by destruct parts).
  intros Heq. apply string_app_inv_head in Heq. by apply concat_snoc_inj in Heq.
Qed.

Lemma fpath_of_child (args : Args) (n : Z) :
  has_slash (date_prefix args) = false ->
  fpath_of args n
  = {| path_root := path_root (base_dir args);
       path_parts := path_parts (base_dir args)
                       ++ [build_filename (date_prefix args) n] |}.
Proof.
  intros Hp. unfold fpath_of. apply joinpath_single.
  - by rewrite has_slash_build_filename.
  - apply length_build_filename.
Qed.

Lemma build_filename_stem (prefix_date : string) (n : Z) :
  build_filename prefix_date n = (prefix_date +:+ "_" +:+ format_0d 4 n) +:+ ".abf".
Proof. unfold build_filename. by rewrite !string_app_assoc. Qed.

Lemma string_length_app_ge (s t : string) (k : nat) :
  (k <= String.length t)%nat -> (k <= String.length (s +:+ t))%nat.
Proof. rewrite string_length_app. lia. Qed.

Lemma fpath_of_stem (args : Args) (n : Z) :
  has_slash (date_prefix args) = false ->
  fpath_of args n
  = {| path_root := path_root (base_dir args);
       path_parts := path_parts (base_dir args)
                       ++ [(date_prefix args +:+ "_" +:+ format_0d 4 n) +:+ ".abf"] |}.
Proof. intros Hp. rewrite (fpath_of_child args n Hp). by rewrite build_filename_stem. Qed.

Lemma path_stem_fpath_of (args : Args) (n : Z) :
  has_slash (date_prefix args) = false ->
  path_stem (fpath_of args n) = date_prefix args +:+ "_" +:+ format_0d 4 n.
Proof.
  intros Hp. rewrite (fpath_of_stem args n Hp). apply path_stem_abf.
  rewrite !string_length_app. change (String.length "_") with 1%nat.
  generalize (String.length (format_0d 4 n)) (String.length (date_prefix args)).
  intros a b. lia.
Qed.

Lemma out_files_of_index (args : Args) (n : Z) :
  has_slash (date_prefix args) = false ->
  out_files (fpath_of args n) (outdir args)
  = [ {| path_root := path_root (outdir args);
         path_parts := path_parts (outdir args)
           ++ [(date_prefix args +:+ "_" +:+ format_0d 4 n) +:+ ".filtered.png"] |};
      {| path_root := path_root (outdir args);
         path_parts := path_parts (outdir args)
           ++ [(date_prefix args +:+ "_" +:+ format_0d 4 n) +:+ ".filtered.pdf"] |} ].
Proof.
  intros Hp.
  assert (has_slash (date_prefix args +:+ "_" +:+ format_0d 4 n) = false) as Hs.
  { rewrite !has_slash_app, Hp, has_slash_format. done. }
  unfold out_files. cbn [map]. rewrite (path_stem_fpath_of args n Hp).
  change (".filtered." +:+ "png") with ".filtered.png".
  change (".filtered." +:+ "pdf") with ".filtered.pdf".
  rewrite !joinpath_single;
    try (apply string_length_app_ge; vm_compute; lia);
    try (rewrite (has_slash_app (date_prefix args +:+ "_" +:+ format_0d 4 n)), Hs; done).
  done.
Qed.

(** X2: with a prefix that has no slash, the input of an index is the child
    [prefix_NNNN.abf] of the base directory, its stem is [prefix_NNNN], and
    its two outputs are the children [prefix_NNNN.filtered.png] and
    [prefix_NNNN.filtered.pdf] of the output directory. *)
Theorem names_of_an_index (args : Args) (n : Z) :
  has_slash (date_prefix args) = false ->
  let stem := date_prefix args +:+ "_" +:+ format_0d 4 n in
  fpath_of args n
  = {| path_root := path_root (base_dir args);
       path_parts := path_parts (base_dir args) ++ [stem +:+ ".abf"] |}
  /\ path_parent (fpath_of args n) = base_dir args
  /\ path_stem (fpath_of args n) = stem
  /\ out_files (fpath_of args n) (outdir args)
     = [ {| path_root := path_root (outdir args);
            path_parts := path_parts (outdir args) ++ [stem +:+ ".filtered.png"] |};
         {| path_root := path_root (outdir args);
            path_parts := path_parts (outdir args) ++ [stem +:+ ".filtered.pdf"] |} ].
Proof.
  intros Hp stem. split; [by apply fpath_of_stem|]. split; [|split].
  - rewrite (fpath_of_stem args n Hp). unfold path_parent. cbn [path_root path_parts].
    rewrite removelast_last. by destruct (base_dir args).
  - by apply path_stem_fpath_of.
  - by apply out_files_of_index.
Qed.

(** Recording 77 of the example. *)
Lemma names_of_an_index_witness :
  has_slash (date_prefix example_args) = false
  /\ (let stem := date_prefix example_args +:+ "_" +:+ format_0d 4 77 in
      fpath_of example_args 77
      = {| path_root := path_root (base_dir example_args);
           path_parts := path_parts (base_dir example_args) ++ [stem +:+ ".abf"] |}
      /\ path_parent (fpath_of example_args 77) = base_dir example_args
      /\ path_stem (fpath_of example_args 77) = stem
      /\ out_files (fpath_of example_args 77) (outdir example_args)
         = [ {| path_root := path_root (outdir example_args);
                path_parts := path_parts (outdir example_args)
                                ++ [stem +:+ ".filtered.png"] |};
             {| path_root := path_root (outdir example_args);
                path_parts := path_parts (outdir example_args)
                                ++ [stem +:+ ".filtered.pdf"] |} ]).
Proof.
  split; [reflexivity|].
  apply (names_of_an_index example_args 77). reflexivity.
Defined.

Lemma stem_injective (prefix_date : string) (m n : Z) :
  prefix_date +:+ "_" +:+ format_0d 4 m = prefix_date +:+ "_" +:+ format_0d 4 n -> m = n.
Proof.
  intros Heq. apply string_app_inv_head, string_app_inv_head in Heq.
  pose proof (parse_int_format 4 m) as Hm. rewrite Heq, parse_int_format in Hm.
  congruence.
Qed.

(** X3: with a prefix that has no slash, two indices never share an input
    path, and no output of one is an output of the other: the files of a
    batch do not overwrite each other. *)
Theorem indices_do_not_collide (args : Args) (m n : Z) :
  has_slash (date_prefix args) = false -> m <> n ->
  path_str (fpath_of args m) <> path_str (fpath_of args n)
  /\ forall s, s ∈ map path_str (out_files (fpath_of args m) (outdir args)) ->
               s ∉ map path_str (out_files (fpath_of args n) (outdir args)).
Proof.
  intros Hp Hmn. split.
  - rewrite (fpath_of_stem args m Hp), (fpath_of_stem args n Hp). intros Heq.
    apply path_str_child_inj, string_app_inv_tail, stem_injective in Heq. done.
  - rewrite (out_files_of_index args m Hp), (out_files_of_index args n Hp).
    cbn [map]. intros s Hm Hn.
    rewrite !elem_of_cons, elem_of_nil in Hm, Hn.
    destruct Hm as [->|[->|[]]], Hn as [Heq|[Heq|[]]];
      apply path_str_child_inj in Heq.
    + apply string_app_inv_tail, stem_injective in Heq. done.
    + apply string_app_suffix_eq in Heq; [discriminate Heq|done].
    + apply string_app_suffix_eq in Heq; [discriminate Heq|done].
    + apply string_app_inv_tail, stem_injective in Heq. done.
Qed.

(** Recordings 77 and 78 of the example. *)
Lemma indices_do_not_collide_witness :
  path_str (fpath_of example_args 77) <> path_str (fpath_of example_args 78)
  /\ forall s, s ∈ map path_str (out_files (fpath_of example_args 77) (outdir example_args)) ->
               s ∉ map path_str (out_files (fpath_of example_args 78) (outdir example_args)).
Proof.
  apply (indices_do_not_collide example_args 77 78); [reflexivity | discriminate].
Defined.

Lemma split_root_absolute (rest : string) : split_root (String "/" rest) <> EmptyString.
Proof. destruct rest as [|c [|d r]]; cbn; try done; repeat case_match; done. Qed.

(** X4: a prefix that starts with a slash makes the name absolute, and the
    join drops the base directory: the file is looked up where the prefix
    says, whatever [--base-dir] is. *)
Theorem absolute_prefix_ignores_base_dir (args : Args) (rest : string) (n : Z) :
  date_prefix args = String "/" rest ->
  fpath_of args n = parse_path (build_filename (date_prefix args) n)
  /\ path_root (fpath_of args n) <> EmptyString.
Proof.
  intros Hp.
  assert (path_root (parse_path (build_filename (date_prefix args) n)) <> EmptyString)
    as Hroot.
  { rewrite Hp. unfold build_filename. rewrite string_app_cons.
    apply split_root_absolute. }
  assert (fpath_of args n = parse_path (build_filename (date_prefix args) n)) as Hf.
  { unfold fpath_of, joinpath.
    destruct (String.eqb_spec (path_root (parse_path (build_filename (date_prefix args) n)))
                EmptyString); done. }
  split; [exact Hf|]. by rewrite Hf.
Qed.

(** ** The figure and the stages of [plot_one_abf] *)

Section FigureProps.
Context {K : filter_kernel}.

Lemma add_lines_nil (fig : Figure) : add_lines fig [] = fig.
Proof. destruct fig. unfold add_lines. cbn. by rewrite app_nil_r. Qed.

Lemma add_lines_cons (fig : Figure) (x y : list Q) (lw : Q)
    (lines : list (list Q * list Q * Q)) :
  add_lines (ax_plot fig x y lw) lines = add_lines fig ((x, y, lw) :: lines).
Proof. unfold add_lines, ax_plot. cbn. by rewrite <- app_assoc. Qed.

(** The loop of line 48, from sweep [k] on. *)
Lemma plot_sweeps_from (abf : ABF) (cutoff_hz fs_hz : Q) (k : nat)
    (rest : list (list Q * list Q)) (fig : Figure) (w : world) :
  drop k (sweeps abf) = rest ->
  foldM (plot_sweep abf cutoff_hz fs_hz) (seq k (length rest)) fig w
  = (w, match filter_sweeps rest cutoff_hz fs_hz with
        | Ok lines => Ok (add_lines fig lines)
        | Err e => Err e
        end).
Proof.
  revert k fig. induction rest as [|[sx sy] rest IH]; intros k fig Hdrop.
  - cbn. by rewrite add_lines_nil.
  - cbn [length seq foldM filter_sweeps]. rewrite bind_apply, plot_sweep_unfold.
    assert (sweeps abf !! k = Some (sx, sy)) as ->.
    { rewrite <- (Nat.add_0_r k), <- lookup_drop, Hdrop. done. }
    cbn [mbind result_bind].
    destruct (low_pass_filter sy cutoff_hz fs_hz 4) as [y|e]; [|done].
    rewrite (IH (S k)).
    2:{ replace (S k) with (k + 1)%nat by lia. by rewrite <- drop_drop, Hdrop. }
    destruct (filter_sweeps rest cutoff_hz fs_hz) as [lines|e]; [|done].
    by rewrite add_lines_cons.
Qed.

Lemma plot_sweeps_spec (abf : ABF) (cutoff_hz fs_hz : Q) (w : world) :
  foldM (plot_sweep abf cutoff_hz fs_hz) (seq 0 (sweepCount abf)) subplots w
  = (w, match filter_sweeps (sweeps abf) cutoff_hz fs_hz with
        | Ok lines => Ok (add_lines subplots lines)
        | Err e => Err e
        end).
Proof. apply (plot_sweeps_from abf cutoff_hz fs_hz 0 (sweeps abf)). done. Qed.

(** [plot_one_abf] by stages: load, sample rate, traces, then the outputs. *)
Lemma plot_one_abf_unfold (abf_path : Path) (cutoff_hz : Q) (baseline : Q * Q)
    (measure_t : Q) (outdir : Path) (w : world) :
  plot_one_abf abf_path cutoff_hz baseline measure_t outdir w
  = match pyabf_ABF (path_str abf_path) w with
    | (_, Ok abf) =>
        match get_sample_rate abf with
        | Ok fs_hz =>
            match filter_sweeps (sweeps abf) cutoff_hz fs_hz with
            | Ok lines =>
                save_outputs (finished_figure abf_path lines baseline measure_t)
                  abf_path outdir w
            | Err e => (w, Err e)
            end
        | Err e => (w, Err e)
        end
    | (_, Err e) => (w, Err e)
    end.
Proof.
  unfold plot_one_abf. rewrite bind_apply.
  assert (forall r, pyabf_ABF (path_str abf_path) w = r -> r.1 = w) as Hw.
  { intros r <-. unfold pyabf_ABF. by repeat case_match. }
  destruct (pyabf_ABF (path_str abf_path) w) as [w0 [abf|e]] eqn:Hload;
    specialize (Hw _ eq_refl); cbn in Hw; subst w0; [|done].
  rewrite bind_apply. unfold lift at 1.
  destruct (get_sample_rate abf) as [fs_hz|e]; [|done].
  rewrite bind_apply, plot_sweeps_spec.
  destruct (filter_sweeps (sweeps abf) cutoff_hz fs_hz) as [lines|e]; [|done].
  destruct baseline as [base1 base2]. reflexivity.
Qed.

End FigureProps.

Section FigureTheorems.
Context {K : filter_kernel}.

Lemma lfilter_ok_length (b a x zi y zf : list Q) :
  lfilter b a x zi = Ok (y, zf) -> length y = length x.
Proof.
  unfold lfilter. destruct a as [|a0 a]; [done|]. destruct (Qeq_bool a0 0); [done|].
  intros [= Hrun].
  match type of Hrun with
  | lfilter_run ?b' ?a' _ _ = _ => pose proof (lfilter_run_length b' a' zi x) as Hl
  end.
  by rewrite Hrun in Hl.
Qed.

(** When [filtfilt] returns, the output has the length of the input. *)
Lemma filtfilt_ok_length (b a x y : list Q) :
  filtfilt b a x = Ok y -> length y = length x.
Proof.
  unfold filtfilt.
  set (edge := (3 * Nat.max (length a) (length b))%nat).
  destruct (Nat.leb_spec (length x) edge) as [|Hlong]; [done|].
  destruct (lfilter b a (odd_ext x edge) _) as [[y1 z1]|e1] eqn:E1; [|done].
  cbn [mbind result_bind].
  destruct (lfilter b a (rev y1) _) as [[y2 z2]|e2] eqn:E2; [|done].
  cbn [mbind result_bind]. intros [= <-].
  apply lfilter_ok_length in E1, E2.
  rewrite length_rev in E2. rewrite (odd_ext_length x edge Hlong) in E1.
  destruct (Nat.ltb_spec 0 edge).
  - rewrite length_take, length_drop, length_rev. lia.
  - rewrite length_rev. lia.
Qed.

Lemma low_pass_filter_ok_length (data y : list Q) (cutoff_hz fs_hz : Q) (order : nat) :
  low_pass_filter data cutoff_hz fs_hz order = Ok y -> length y = length data.
Proof.
  unfold low_pass_filter. destruct (Qle_bool _ _); [done|].
  unfold design_and_apply. destruct (py_div _ _) as [Wn|e]; [|done].
  cbn [mbind result_bind]. destruct (butter order Wn) as [[b a]|e]; [|done].
  cbn [mbind result_bind]. apply filtfilt_ok_length.
Qed.

Lemma filter_sweeps_ok (l : list (list Q * list Q)) (cutoff_hz fs_hz : Q)
    (lines : list (list Q * list Q * Q)) :
  filter_sweeps l cutoff_hz fs_hz = Ok lines ->
  Forall2 (trace_of cutoff_hz fs_hz) lines l.
Proof.
  revert lines. induction l as [|[sx sy] l IH]; intros lines.
  - intros [= <-]. constructor.
  - cbn [filter_sweeps].
    destruct (low_pass_filter sy cutoff_hz fs_hz 4) as [y|e] eqn:Ey; [|done].
    cbn [mbind result_bind].
    destruct (filter_sweeps l cutoff_hz fs_hz) as [rest|e]; [|done].
    cbn [mbind result_bind]. intros [= <-]. constructor; [|by apply IH].
    exists y. split_and!; [done..|]. by apply low_pass_filter_ok_length in Ey.
Qed.

Lemma filter_sweeps_err (l : list (list Q * list Q)) (cutoff_hz fs_hz : Q)
    (i : nat) (sx sy : list Q) (e : exn) :
  l !! i = Some (sx, sy) -> low_pass_filter sy cutoff_hz fs_hz 4 = Err e ->
  exists e', filter_sweeps l cutoff_hz fs_hz = Err e'.
Proof.
  revert i. induction l as [|[x y] l IH]; intros i Hi Herr; [done|].
  cbn [filter_sweeps]. destruct i as [|i].
  - injection Hi as -> ->. rewrite Herr. by eexists.
  - destruct (low_pass_filter y cutoff_hz fs_hz 4); [|by eexists].
    cbn [mbind result_bind]. destruct (IH i Hi Herr) as (e' & ->). by eexists.
Qed.

Lemma pyabf_ABF_ok (s : string) (w w' : world) (abf : ABF) :
  pyabf_ABF s w = (w', Ok abf) -> os_stat (fs w) s = Some (File (Recording abf)).
Proof. unfold pyabf_ABF. repeat case_match; intros [= <- <-]; done. Qed.

Lemma pyabf_ABF_recording (s : string) (w : world) (abf : ABF) :
  os_stat (fs w) s = Some (File (Recording abf)) -> pyabf_ABF s w = (w, Ok abf).
Proof. unfold pyabf_ABF. by intros ->. Qed.

Lemma save_outputs_ok (fig : Figure) (abf_path outdir : Path) (w w' : world) :
  save_outputs fig abf_path outdir w = (w', Ok tt) ->
  exists w1 w2,
    Path_mkdir outdir w = (w1, Ok tt)
    /\ savefig fig (joinpath outdir (path_stem abf_path +:+ ".filtered.png")) 300 w1
       = (w2, Ok tt)
    /\ savefig fig (joinpath outdir (path_stem abf_path +:+ ".filtered.pdf")) 300 w2
       = (w', Ok tt).
Proof.
  unfold save_outputs. rewrite bind_apply.
  destruct (Path_mkdir outdir w) as [w1 [[]|e]]; [|done].
  cbn [out_files map foldM]. rewrite bind_apply.
  change (".filtered." +:+ "png") with ".filtered.png".
  change (".filtered." +:+ "pdf") with ".filtered.pdf".
  destruct (savefig fig _ 300 w1) as [w2 [[]|e]] eqn:Hpng; [|done].
  rewrite bind_apply.
  destruct (savefig fig _ 300 w2) as [w3 [[]|e]] eqn:Hpdf; [|done].
  intros [= <-]. by exists w1, w2.
Qed.

(** X8: what a successful [plot_one_abf] has saved, under both names, is the
    figure of the recording stored under the input path: one trace per
    sweep, in the order of the sweeps, each the sweep's own time axis
    against the filtered amplitudes (as many as the sweep has) at line
    width 0.8; the three dashed markers at the baseline start (red), the
    baseline end (green) and the measurement time (blue), labelled to four
    decimals; the axis labels, the title naming the file, the legend. *)
Theorem saved_figure_content (abf_path : Path) (cutoff_hz : Q) (baseline : Q * Q)
    (measure_t : Q) (outdir : Path) (w w' : world) :
  plot_one_abf abf_path cutoff_hz baseline measure_t outdir w = (w', Ok tt) ->
  exists abf fs_hz lines,
    os_stat (fs w) (path_str abf_path) = Some (File (Recording abf))
    /\ get_sample_rate abf = Ok fs_hz
    /\ Forall2 (trace_of cutoff_hz fs_hz) lines (sweeps abf)
    /\ Forall (fun out_file =>
                 fs w' !! path_str out_file
                 = Some (File (Rendering
                                (finished_figure abf_path lines baseline measure_t) 300)))
         (out_files abf_path outdir).
Proof.
  rewrite plot_one_abf_unfold.
  destruct (pyabf_ABF (path_str abf_path) w) as [w0 [abf|e]] eqn:Hload; [|done].
  apply pyabf_ABF_ok in Hload.
  destruct (get_sample_rate abf) as [fs_hz|e] eqn:Hrate; [|done].
  destruct (filter_sweeps (sweeps abf) cutoff_hz fs_hz) as [lines|e] eqn:Hlines; [|done].
  intros Hsave. exists abf, fs_hz, lines.
  split; [exact Hload|]. split; [done|]. split; [by apply filter_sweeps_ok|].
  apply save_outputs_ok in Hsave as (w1 & w2 & _ & Hpng & Hpdf).
  unfold savefig in Hpng, Hpdf.
  apply os_write_cases in Hpng as [(_ & -> & _)|(e & [=] & _)].
  apply os_write_cases in Hpdf as [(_ & -> & _)|(e & [=] & _)].
  pose proof (out_files_distinct abf_path outdir) as Hne.
  unfold out_files. cbn [map with_fs fs].
  repeat constructor.
  - rewrite lookup_insert_ne by (intros Heq; by apply Hne). by rewrite lookup_insert_eq.
  - by rewrite lookup_insert_eq.
Qed.

(** X9: a sweep that the filter refuses fails the whole file before anything
    is written: the world is as before, the output directory is not even
    created, and no figure of the other sweeps is saved. *)
Theorem refused_sweep_leaves_no_output (abf_path : Path) (cutoff_hz : Q)
    (baseline : Q * Q) (measure_t : Q) (outdir : Path) (w : world) (abf : ABF)
    (fs_hz : Q) (i : nat) (sweepX sweepY : list Q) (e : exn) :
  os_stat (fs w) (path_str abf_path) = Some (File (Recording abf)) ->
  get_sample_rate abf = Ok fs_hz ->
  sweeps abf !! i = Some (sweepX, sweepY) ->
  low_pass_filter sweepY cutoff_hz fs_hz 4 = Err e ->
  exists e', plot_one_abf abf_path cutoff_hz baseline measure_t outdir w = (w, Err e').
Proof.
  intros Hload Hrate Hi Herr.
  rewrite plot_one_abf_unfold, (pyabf_ABF_recording _ _ _ Hload), Hrate.
  destruct (filter_sweeps_err _ _ _ _ _ _ _ Hi Herr) as (e' & ->). by exists e'.
Qed.

(** X7: [get_sample_rate] prefers [sampleRateHz] to [dataRate]; a recording
    with neither makes [plot_one_abf] raise the [AttributeError] of line 25
    with the world as before. *)
Theorem sample_rate_lookup (abf : ABF) :
  (forall rate, sampleRateHz abf = Some rate -> get_sample_rate abf = Ok rate)
  /\ (forall rate, sampleRateHz abf = None -> dataRate abf = Some rate ->
        get_sample_rate abf = Ok rate)
  /\ (sampleRateHz abf = None -> dataRate abf = None ->
      forall abf_path cutoff_hz baseline measure_t outdir w,
        os_stat (fs w) (path_str abf_path) = Some (File (Recording abf)) ->
        plot_one_abf abf_path cutoff_hz baseline measure_t outdir w
        = (w, Err (Raise AttributeError
                     [Str "ABF sample rate not found (sampleRateHz or dataRate missing)."]))).
Proof.
  unfold get_sample_rate. split; [|split].
  - by intros rate ->.
  - by intros rate -> ->.
  - intros H1 H2 abf_path cutoff_hz baseline measure_t outdir w Hload.
    rewrite plot_one_abf_unfold, (pyabf_ABF_recording _ _ _ Hload).
    unfold get_sample_rate. by rewrite H1, H2.
Qed.

End FigureTheorems.

(** ** The outcomes of the filter *)

Section FilterOutcomes.
Context {K : filter_kernel}.





(** X6: at a sampling rate of zero the Nyquist frequency is zero: a cutoff
    of zero or more raises the Nyquist error, and a negative cutoff passes
    the guard and raises [ZeroDivisionError] at the division of line 33. *)
Theorem low_pass_filter_zero_rate (data : list Q) (cutoff_hz fs_hz : Q) (order : nat) :
  (fs_hz == 0)%Q ->
  ((0 <= cutoff_hz)%Q ->
     low_pass_filter data cutoff_hz fs_hz order
     = Err (nyquist_error cutoff_hz ((1 # 2) * fs_hz)))
  /\ ((cutoff_hz < 0)%Q ->
        low_pass_filter data cutoff_hz fs_hz order
        = Err (Raise ZeroDivisionError [Str "float division by zero"])).
Proof.
  intros Hz.
  assert ((1 # 2) * fs_hz == 0)%Q as Hny by (rewrite Hz; reflexivity).
  assert (fs_hz / 2 == 0)%Q as Hhalf by (rewrite Hz; reflexivity).
  split; intros Hc.
  - apply low_pass_filter_raises. by rewrite Hhalf.
  - rewrite low_pass_filter_proceeds by (by rewrite Hhalf).
    unfold design_and_apply, py_div.
    by rewrite (proj2 (Qeq_bool_iff _ _) Hny).
Qed.

End FilterOutcomes.

Lemma low_pass_filter_zero_rate_witness :
  (0 == 0)%Q
  /\ @low_pass_filter example_kernel (ramp 20) 1000 0 4
     = Err (nyquist_error 1000 ((1 # 2) * 0))
  /\ @low_pass_filter example_kernel (ramp 20) (-1) 0 4
     = Err (Raise ZeroDivisionError [Str "float division by zero"]).
Proof.
  assert (0 == 0)%Q as Hz by reflexivity. split; [exact Hz|].
  split.
  - apply (proj1 (@low_pass_filter_zero_rate example_kernel (ramp 20) 1000 0 4 Hz)).
    discriminate.
  - apply (proj2 (@low_pass_filter_zero_rate example_kernel (ramp 20) (-1) 0 4 Hz)).
    reflexivity.
Defined.

(** ** The batch *)

Section BatchExtras.
Context {K : filter_kernel}.

(** X14: a range whose end lies below its start is empty: [main] prints
    nothing, writes nothing and returns. *)
Theorem empty_range_does_nothing (args : Args) (w : world) :
  end_ args < start args -> main args w = (w, Ok tt).
Proof.
  intros Hlt. unfold main, py_range. rewrite seqZ_nil by lia. reflexivity.
Qed.


(** X13: a file that is processed without an error adds the line
    [[OK] Processed path] to stdout and nothing to stderr, and the loop goes
    on in the world that [plot_one_abf] left. *)
Theorem processed_file_is_reported (args : Args) (n : Z) (ns : list Z)
    (missing_files : list string) (w w' : world) :
  is_Some (os_stat (fs w) (path_str (fpath_of args n))) ->
  plot_one_abf (fpath_of args n) (cutoff args) (baseline args) (measure args)
    (outdir args) w = (w', Ok tt) ->
  main_loop args (n :: ns) missing_files w
  = main_loop args ns missing_files
      {| fs := fs w';
         stdout := stdout w ++ [[Str ("[OK] Processed " +:+ path_str (fpath_of args n))]];
         stderr := stderr w |}.
Proof.
  intros [nd Hnd] Hplot.
  rewrite main_loop_cons, main_body_unfold, Hnd, Hplot.
  apply plot_one_abf_frame in Hplot as (Ho & He & _).
  cbn [after_plot]. unfold add_stdout, ok_line. by rewrite Ho, He.
Qed.

End BatchExtras.

(** Recording 77 of the example, then index 78. *)
Lemma processed_file_is_reported_witness :
  @main_loop example_kernel example_args (77 :: [78]) [] example_world
  = @main_loop example_kernel example_args [78] []
      {| fs := fs first_run;
         stdout := stdout example_world
           ++ [[Str ("[OK] Processed " +:+ path_str (fpath_of example_args 77))]];
         stderr := stderr example_world |}.
Proof.
  apply (@processed_file_is_reported example_kernel example_args 77 [78] []
           example_world first_run).
  - vm_compute. eexists. reflexivity.
  - vm_compute. reflexivity.
Defined.

Lemma empty_range_does_nothing_witness :
  @main example_kernel reversed_args example_world = (example_world, Ok tt).
Proof. apply (@empty_range_does_nothing example_kernel). reflexivity. Defined.

(** ** What is kept, and a second run *)

Section KeepProps.

Lemma same_kind_refl (nd : node) : same_kind nd nd.
Proof. by destruct nd. Qed.

Lemma same_kind_trans (a b c : node) : same_kind a b -> same_kind b c -> same_kind a c.
Proof. by destruct a, b, c. Qed.

Lemma kept_refl (m : gmap string node) : kept m m.
Proof. intros s nd H. exists nd. split; [done|apply same_kind_refl]. Qed.

Lemma kept_trans (m1 m2 m3 : gmap string node) : kept m1 m2 -> kept m2 m3 -> kept m1 m3.
Proof.
  intros H12 H23 s nd H1. destruct (H12 s nd H1) as (nd2 & H2 & K12).
  destruct (H23 s nd2 H2) as (nd3 & H3 & K23). exists nd3.
  split; [done|]. by eapply same_kind_trans.
Qed.

Lemma dirs_added_kept (L : list string) (m m' : gmap string node) :
  dirs_added L m m' -> kept m m'.
Proof.
  intros Hadd s nd Hs. exists nd. split; [|apply same_kind_refl].
  destruct (Hadd s) as [->|(Hn & _)]; [done|congruence].
Qed.

(** Where the path is not a directory, [os.stat] is a plain lookup. *)
Lemma os_stat_plain (m m' : gmap string node) (s : string) :
  os_stat m s <> Some Dir -> os_stat m' s = m' !! s.
Proof. unfold os_stat. by destruct (_ || _). Qed.

Lemma os_write_kept (p : Path) (c : content) (w w' : world) (r : result unit) :
  os_write p c w = (w', r) -> kept (fs w) (fs w').
Proof.
  intros Hw. apply os_write_cases in Hw as [(_ & -> & Hnd)|(e & _ & ->)];
    [|apply kept_refl].
  intros s nd Hs. cbn [with_fs fs].
  destruct (decide (path_str p = s)) as [<-|Hne].
  - rewrite lookup_insert_eq. eexists. split; [done|].
    rewrite (os_stat_plain _ (fs w) _ Hnd), Hs in Hnd. by destruct nd.
  - rewrite lookup_insert_ne by done. exists nd. split; [done|apply same_kind_refl].
Qed.

Lemma os_write_ok_parent (p : Path) (c : content) (w w' : world) :
  os_write p c w = (w', Ok tt) -> is_dir_in (fs w) (path_parent p).
Proof.
  unfold os_write, is_dir_in.
  destruct (os_stat (fs w) (path_str (path_parent p))) as [[|c0]|]; done.
Qed.

Lemma with_fs_insert_id (w : world) (k : string) (nd : node) :
  fs w !! k = Some nd -> with_fs w (<[k := nd]> (fs w)) = w.
Proof. intros H. unfold with_fs. rewrite (insert_id _ _ _ H). by destruct w. Qed.

(** Writing a file over itself changes nothing. *)
Lemma os_write_again (p : Path) (c : content) (w : world) :
  is_dir_in (fs w) (path_parent p) ->
  os_stat (fs w) (path_str p) = Some (File c) ->
  fs w !! path_str p = Some (File c) ->
  os_write p c w = (w, Ok tt).
Proof.
  intros Hpar Hst Hlk. unfold os_write. unfold is_dir_in in Hpar.
  rewrite Hpar, Hst. by rewrite (with_fs_insert_id _ _ _ Hlk).
Qed.

Lemma os_stat_insert_some (m : gmap string node) (k s : string) (nd : node) :
  is_Some (os_stat m s) -> is_Some (os_stat (<[k := nd]> m) s).
Proof.
  unfold os_stat. destruct (_ || _); [done|].
  destruct (decide (k = s)) as [->|Hne].
  - rewrite lookup_insert_eq. eauto.
  - by rewrite lookup_insert_ne.
Qed.

Lemma os_write_keeps_some (p : Path) (c : content) (w w' : world) (r : result unit)
    (s : string) :
  os_write p c w = (w', r) -> is_Some (os_stat (fs w) s) -> is_Some (os_stat (fs w') s).
Proof.
  intros Hw. apply os_write_cases in Hw as [(_ & -> & _)|(e & _ & ->)]; [|done].
  apply os_stat_insert_some.
Qed.

(** After a successful [mkdir] the parent of the path exists. *)
Lemma mkdir_parents_parent (root : string) (rparts : list string) (w w' : world) :
  mkdir_parents root rparts w = (w', Ok tt) ->
  is_Some (os_stat (fs w') (path_str (path_parent (mk_path root rparts)))).
Proof.
  destruct rparts as [|x rparent].
  - intros Hmk. apply mkdir_parents_spec in Hmk as (_ & _ & _ & Hok).
    destruct (Hok eq_refl) as [Hdir _]. rewrite path_parent_mk_nil.
    unfold is_dir_in in Hdir. rewrite Hdir. eauto.
  - rewrite mkdir_parents_unfold, path_parent_mk. cbv zeta.
    destruct (os_mkdir_cases (mk_path root (x :: rparent)) w)
      as [(e & -> & Hfnf)|(-> & Hpar & Hself)].
    + rewrite path_parent_mk in Hfnf.
      destruct (is_FileNotFoundError e) eqn:Ee.
      * destruct (mkdir_parents root rparent w) as [w1 [[]|e1]] eqn:Hrec; [|done].
        apply mkdir_parents_spec in Hrec as (_ & _ & _ & Hok).
        destruct (Hok eq_refl) as [Hpdir _]. unfold is_dir_in in Hpdir.
        destruct (os_mkdir_cases (mk_path root (x :: rparent)) w1)
          as [(e2 & -> & Hfnf2)|(-> & Hpar2 & Hself2)].
        -- destruct (is_FileNotFoundError e2); [done|].
           intros Hex. apply exist_ok_cases in Hex as [-> _]. rewrite Hpdir. eauto.
        -- intros [= <-]. cbn [with_fs fs]. apply os_stat_insert_some.
           rewrite Hpdir. eauto.
      * intros Hex. apply exist_ok_cases in Hex as [-> _].
        destruct (os_stat (fs w) (path_str (mk_path root rparent))); [eauto|].
        destruct Hfnf as [_ Hfnf]. specialize (Hfnf eq_refl). congruence.
    + intros [= <-]. cbn [with_fs fs]. apply os_stat_insert_some.
      rewrite path_parent_mk in Hpar. rewrite Hpar. eauto.
Qed.

(** [mkdir] on a directory that exists in an existing parent changes nothing. *)
Lemma mkdir_parents_again (root : string) (rparts : list string) (w : world) :
  is_dir_in (fs w) (mk_path root rparts) ->
  is_Some (os_stat (fs w) (path_str (path_parent (mk_path root rparts)))) ->
  mkdir_parents root rparts w = (w, Ok tt).
Proof.
  intros Hdir [nd Hpar]. rewrite mkdir_parents_unfold. cbv zeta.
  destruct (os_mkdir_cases (mk_path root rparts) w)
    as [(e & -> & Hfnf)|(_ & _ & Hself)].
  - destruct (is_FileNotFoundError e).
    + destruct Hfnf as [Hfnf _]. rewrite Hfnf in Hpar; done.
    + rewrite bind_apply, Path_is_dir_apply. unfold is_dir_in in Hdir. by rewrite Hdir.
  - unfold is_dir_in in Hdir. congruence.
Qed.

End KeepProps.

Section RerunProps.
Context {K : filter_kernel}.

Lemma save_outputs_kept (fig : Figure) (abf_path outdir : Path) (w w' : world)
    (r : result unit) :
  save_outputs fig abf_path outdir w = (w', r) -> kept (fs w) (fs w').
Proof.
  unfold save_outputs. rewrite bind_apply.
  destruct (Path_mkdir outdir w) as [w1 r1] eqn:Hmk. unfold Path_mkdir in Hmk.
  apply mkdir_parents_spec in Hmk as (_ & _ & Hadd & _).
  apply dirs_added_kept in Hadd.
  destruct r1 as [[]|e]; [|by intros [= <- <-]].
  cbn [out_files map foldM]. rewrite bind_apply. unfold savefig.
  destruct (os_write _ _ w1) as [w2 r2] eqn:Hpng. apply os_write_kept in Hpng.
  destruct r2 as [[]|e]; [|intros [= <- <-]; by eapply kept_trans].
  rewrite bind_apply.
  destruct (os_write _ _ w2) as [w3 r3] eqn:Hpdf. apply os_write_kept in Hpdf.
  assert (kept (fs w) (fs w3)) as H3 by (eapply kept_trans; [|exact Hpdf]; by eapply kept_trans).
  destruct r3 as [[]|e]; by intros [= <- <-].
Qed.

Lemma plot_one_abf_kept (abf_path : Path) (cutoff_hz : Q) (baseline : Q * Q)
    (measure_t : Q) (outdir : Path) (w w' : world) (r : result unit) :
  plot_one_abf abf_path cutoff_hz baseline measure_t outdir w = (w', r) ->
  kept (fs w) (fs w').
Proof.
  rewrite plot_one_abf_unfold.
  destruct (pyabf_ABF _ w) as [w0 [abf|e]]; [|intros [= <- <-]; apply kept_refl].
  destruct (get_sample_rate abf) as [fs_hz|e]; [|intros [= <- <-]; apply kept_refl].
  destruct (filter_sweeps _ _ _) as [lines|e]; [|intros [= <- <-]; apply kept_refl].
  apply save_outputs_kept.
Qed.

Lemma main_loop_kept (args : Args) (ns : list Z) (missing_files : list string)
    (w : world) :
  kept (fs w) (fs (main_loop args ns missing_files w).1).
Proof.
  revert missing_files w. induction ns as [|n ns IH]; intros missing_files w;
    [apply kept_refl|].
  rewrite main_loop_cons, main_body_unfold.
  destruct (os_stat (fs w) (path_str (fpath_of args n))) as [nd|]; [|apply IH].
  destruct (plot_one_abf _ _ _ _ _ w) as [w1 r] eqn:Hplot.
  apply plot_one_abf_kept in Hplot.
  eapply kept_trans; [exact Hplot|].
  assert (fs (after_plot (fpath_of args n) (w1, r)) = fs w1) as Hfs by (by destruct r).
  rewrite <- Hfs. apply IH.
Qed.

(** X11: the batch removes nothing: whatever path held a directory before
    [main] holds a directory after it, and whatever path held a file holds a
    file (the same, or a figure saved under its name). *)
Theorem main_keeps_every_entry (args : Args) (w : world) (s : string) (nd : node) :
  fs w !! s = Some nd ->
  exists nd', fs (main args w).1 !! s = Some nd' /\ same_kind nd nd'.
Proof.
  destruct (main_spec args w) as (w1 & ms & Hloop & ->). cbn [fst add_stdout fs].
  pose proof (main_loop_kept args (py_range (start args) (end_ args + 1)) [] w) as Hk.
  rewrite Hloop in Hk. apply Hk.
Qed.

(** X10: a run of [plot_one_abf] in the world that a successful run left
    succeeds and changes nothing, provided the input is none of the paths
    the run writes: the output directory is found, and both files are
    written over with the figure they hold. *)
Theorem plot_one_abf_rerun (abf_path : Path) (cutoff_hz : Q) (baseline : Q * Q)
    (measure_t : Q) (outdir : Path) (w w1 : world) :
  plot_one_abf abf_path cutoff_hz baseline measure_t outdir w = (w1, Ok tt) ->
  path_str abf_path ∉ touched abf_path outdir ->
  plot_one_abf abf_path cutoff_hz baseline measure_t outdir w1 = (w1, Ok tt).
Proof.
  intros Hrun Hapart.
  pose proof (plot_one_abf_frame _ _ _ _ _ _ _ _ Hrun) as (_ & _ & Hframe).
  pose proof (os_stat_lookup _ _ _ (Hframe _ Hapart)) as Hin.
  rewrite plot_one_abf_unfold in Hrun |- *.
  unfold pyabf_ABF in Hrun |- *. rewrite Hin.
  destruct (os_stat (fs w) (path_str abf_path)) as [[|[abf|e|fig0 dpi]]|]; try done.
  destruct (get_sample_rate abf) as [fs_hz|e]; [|done].
  destruct (filter_sweeps (sweeps abf) cutoff_hz fs_hz) as [lines|e]; [|done].
  set (fig := finished_figure abf_path lines baseline measure_t) in *.
  apply save_outputs_ok in Hrun as (wa & wb & Hmk & Hpng & Hpdf).
  unfold savefig in Hpng, Hpdf. unfold Path_mkdir in Hmk.
  pose proof (mkdir_parents_parent _ _ _ _ Hmk) as Hpar.
  apply mkdir_parents_spec in Hmk as (_ & _ & _ & Hok).
  destruct (Hok eq_refl) as [Hdir _].
  pose proof (os_write_ok_parent _ _ _ _ Hpng) as Hpp1.
  pose proof (os_write_ok_parent _ _ _ _ Hpdf) as Hpp2.
  pose proof (fun q => os_write_keeps_dir _ q _ _ _ Hpng) as Hk1.
  pose proof (fun q => os_write_keeps_dir _ q _ _ _ Hpdf) as Hk2.
  pose proof (fun s => os_write_keeps_some _ _ _ _ _ s Hpng) as Hs1.
  pose proof (fun s => os_write_keeps_some _ _ _ _ _ s Hpdf) as Hs2.
  pose proof (out_files_distinct abf_path outdir) as Hne.
  change (".filtered." +:+ "png") with ".filtered.png" in Hne.
  change (".filtered." +:+ "pdf") with ".filtered.pdf" in Hne.
  apply os_write_cases in Hpng as [(_ & Hwb & Hnd1)|(e & [=] & _)].
  apply os_write_cases in Hpdf as [(_ & Hw1 & Hnd2)|(e & [=] & _)].
  assert (fs w1 !! path_str (joinpath outdir (path_stem abf_path +:+ ".filtered.png"))
          = Some (File (Rendering fig 300))) as Hl1.
  { rewrite Hw1, Hwb. cbn [with_fs fs].
    rewrite lookup_insert_ne by (intros Heq; by apply Hne). by rewrite lookup_insert_eq. }
  assert (fs w1 !! path_str (joinpath outdir (path_stem abf_path +:+ ".filtered.pdf"))
          = Some (File (Rendering fig 300))) as Hl2.
  { rewrite Hw1. cbn [with_fs fs]. by rewrite lookup_insert_eq. }
  unfold save_outputs. rewrite bind_apply. unfold Path_mkdir.
  rewrite mkdir_parents_again; [|by auto|by auto].
  cbn [out_files map foldM].
  change (".filtered." +:+ "png") with ".filtered.png".
  change (".filtered." +:+ "pdf") with ".filtered.pdf".
  rewrite bind_apply. unfold savefig.
  rewrite os_write_again; [|by auto| |exact Hl1].
  2:{ by rewrite (os_stat_plain _ (fs w1) _ Hnd1). }
  rewrite bind_apply.
  rewrite os_write_again; [done|by auto| |exact Hl2].
  by rewrite (os_stat_plain _ (fs w1) _ Hnd2).
Qed.

End RerunProps.

(** The second run over recording 77 of the example. *)
Lemma plot_one_abf_rerun_witness :
  (path_str example_fpath ∉ touched example_fpath (outdir example_args))
  /\ plot_example first_run = (first_run, Ok tt).
Proof.
  assert (path_str example_fpath ∉ touched example_fpath (outdir example_args)) as Hapart.
  { apply (bool_decide_unpack _). vm_compute. exact I. }
  split; [exact Hapart|].
  apply (@plot_one_abf_rerun example_kernel example_fpath (cutoff example_args)
           (baseline example_args) (measure example_args) (outdir example_args)
           example_world first_run); [|exact Hapart].
  vm_compute. reflexivity.
Defined.

(** The recording 77 of the example is kept by the batch. *)
Lemma main_keeps_every_entry_witness :
  exists nd',
    (fs (@main example_kernel example_args example_world).1)
      !! path_str example_fpath = Some nd'
    /\ same_kind (File (Recording example_recording)) nd'.
Proof.
  apply (@main_keeps_every_entry example_kernel example_args example_world).
  vm_compute. reflexivity.
Defined.

(** The example with a prefix that starts at the root. *)
Lemma absolute_prefix_ignores_base_dir_witness :
  fpath_of absolute_args 77 = parse_path (build_filename (date_prefix absolute_args) 77)
  /\ path_root (fpath_of absolute_args 77) <> EmptyString.
Proof.
  apply (absolute_prefix_ignores_base_dir absolute_args "mnt/rec/2024_02_21" 77).
  reflexivity.
Defined.

(** The first run over recording 77 of the example. *)
Lemma saved_figure_content_witness :
  exists abf fs_hz lines,
    os_stat (fs example_world) (path_str example_fpath) = Some (File (Recording abf))
    /\ get_sample_rate abf = Ok fs_hz
    /\ Forall2 (@trace_of example_kernel (cutoff example_args) fs_hz) lines (sweeps abf)
    /\ Forall (fun out_file =>
                 fs first_run !! path_str out_file
                 = Some (File (Rendering
                                (finished_figure example_fpath lines
                                   (baseline example_args) (measure example_args)) 300)))
         (out_files example_fpath (outdir example_args)).
Proof.
  apply (@saved_figure_content example_kernel example_fpath (cutoff example_args)
           (baseline example_args) (measure example_args) (outdir example_args)
           example_world first_run).
  vm_compute. reflexivity.
Defined.

(** The second sweep of recording 77 has ten samples. *)
Lemma refused_sweep_leaves_no_output_witness :
  exists e', @plot_one_abf example_kernel example_fpath (cutoff example_args)
               (baseline example_args) (measure example_args) (outdir example_args)
               short_sweep_world
             = (short_sweep_world, Err e').
Proof.
  apply (@refused_sweep_leaves_no_output example_kernel example_fpath
           (cutoff example_args) (baseline example_args) (measure example_args)
           (outdir example_args) short_sweep_world short_sweep_recording
           (20000 # 1)%Q 1%nat (ramp 10) (ramp 10) (padlen_error 15)).
  - vm_compute. reflexivity.
  - reflexivity.
  - reflexivity.
  - vm_compute. reflexivity.
Defined.
